(** * Infera dashboard ([inf4.py]): a shallow embedding of the script

    The program is a Streamlit script: every user interaction re-executes
    it from the first line to the last.  One execution reads the process
    environment, prepares the session state, draws the sidebar and then
    runs one of two flows ("Summarize", "Question based Graph"), each of
    which is a straight sequence of calls to external collaborators (the
    LIDA library, Google Drive, Airtable) mixed with UI output.

    The embedding follows the script line by line:
    - Python values that cross the boundaries (JSON bodies, summaries,
      goals, links) are a small inductive type [PyVal] with Python's
      truthiness;
    - the collaborators are the fields of a record [Services]: each field
      gives, for the arguments of a call, either the value it returns or
      the exception it raises;
    - script code lives in a monad [M] that threads the session state,
      records every UI output and every service call in a chronological
      trace, and propagates exceptions while keeping the state and trace
      reached so far (as Python does);
    - [try: ... except Exception as e: ...] is [try_except]. *)

From Stdlib Require Import String List ZArith QArith Bool Lia.
Import ListNotations.
Local Open Scope string_scope.
Local Open Scope Z_scope.
Local Open Scope list_scope.
Set Warnings "-register-all".

(** ** Python values *)

(** The values exchanged with the collaborators.  JSON numbers are kept
    to integers; a dict is an association list in insertion order. *)
Inductive PyVal : Type :=
| PyNone
| PyBool (b : bool)
| PyInt (n : Z)
| PyStr (s : string)
| PyList (items : list PyVal)
| PyDict (entries : list (string * PyVal)).

(** [bool(v)]: what [if v:] tests. *)
Definition truthy (v : PyVal) : bool :=
  match v with
  | PyNone => false
  | PyBool b => b
  | PyInt n => negb (n =? 0)
  | PyStr s => negb (s =? "")%string
  | PyList items => match items with [] => false | _ :: _ => true end
  | PyDict entries => match entries with [] => false | _ :: _ => true end
  end.

(** [isinstance(v, dict)] and [isinstance(v, str)]. *)
Definition is_dict (v : PyVal) : bool :=
  match v with PyDict _ => true | _ => false end.

Definition is_str (v : PyVal) : bool :=
  match v with PyStr _ => true | _ => false end.

(** [d.get(key)]: the first binding of [key], [None] when there is none. *)
Fixpoint dict_get (d : list (string * PyVal)) (key : string) : PyVal :=
  match d with
  | [] => PyNone
  | (k, v) :: rest => if (k =? key)%string then v else dict_get rest key
  end.

(** Truthiness of an optional string, as [all([...])] and [if path:] see
    the result of [os.getenv] or a session entry: [None] and [""] are
    false. *)
Definition truthy_opt (o : option string) : bool :=
  match o with
  | None => false
  | Some s => negb (s =? "")%string
  end.

(** ** Exceptions and outcomes *)

(** An instance of [Exception]: its class name and its message; [str(e)]
    is the message. *)
Record Exn : Type := mkExn { exn_class : string; exn_msg : string }.

Definition ValueError (msg : string) : Exn := mkExn "ValueError" msg.
Definition IndexError (msg : string) : Exn := mkExn "IndexError" msg.

Definition str_exn (e : Exn) : string := exn_msg e.

(** The outcome of a call: a value, or a raised exception. *)
Inductive Outcome (A : Type) : Type :=
| Ok (a : A)
| Raise (e : Exn).
Arguments Ok {A} a.
Arguments Raise {A} e.

(** ** Objects of the collaborators *)

(** A PIL image, identified by its PNG encoding. *)
Inductive Image : Type := PILImage (png : string).

(** A LIDA chart: only its [raster] attribute is read. *)
Record Chart : Type := mkChart { raster : string }.

(** [TextGenerationConfig(n, temperature, model, use_cache)]. *)
Record TextGenerationConfig : Type := mkTextGen {
  tg_n : Z;
  tg_temperature : Q;
  tg_model : option string;
  tg_use_cache : bool
}.

(** What [requests.post] returns: the status code, and what
    [response.json()] does (it raises when the body is not JSON). *)
Record Response : Type := mkResponse {
  status_code : Z;
  json : Outcome PyVal
}.

(** Service-account credentials loaded from the key file. *)
Inductive Credentials : Type := ServiceAccount (key_file : string) (scopes : list string).

(** The Drive client returned by [build]. *)
Inductive DriveService : Type := DriveClient (name version : string) (cred : Credentials).

(** ** Collaborators *)

(** Everything outside the script.  A field maps the arguments of one
    call to its outcome; [repr] is Python's own [repr], which is what
    [str()] and an f-string give for a value that is not a [str]. *)
Record Services : Type := mkServices {
  getenv : string -> option string;
  from_service_account_file : string -> list string -> Outcome Credentials;
  build : string -> string -> Credentials -> Outcome DriveService;
  lida_summarize : string -> string -> TextGenerationConfig -> Outcome PyVal;
  lida_goals : PyVal -> Z -> TextGenerationConfig -> Outcome (list PyVal);
  lida_visualize :
    PyVal -> PyVal -> TextGenerationConfig -> option string -> Outcome (list Chart);
  b64decode_open : string -> Outcome Image;
  drive_files_create : list (string * PyVal) -> Image -> string -> Outcome (list (string * PyVal));
  requests_post : string -> list (string * PyVal) -> PyVal -> Outcome Response;
  image_save_b64 : Image -> string -> Outcome string;
  repr : PyVal -> string
}.

(** [str(v)], also what [f"{v}"] inserts. *)
Definition py_str (ext : Services) (v : PyVal) : string :=
  match v with
  | PyStr s => s
  | _ => repr ext v
  end.

(** ** Session state and trace *)

(** [st.session_state] once the four keys exist. *)
Record SessionState : Type := mkSession {
  csv_file_path : option string;
  summary : option PyVal;
  generated_charts : list Image;
  chart_names : list string
}.

(** [st.session_state] as the script finds it: a key may be absent
    ([None] here) on the first execution of a session. *)
Record RawSession : Type := mkRaw {
  raw_csv_file_path : option (option string);
  raw_summary : option (option PyVal);
  raw_generated_charts : option (list Image);
  raw_chart_names : option (list string)
}.

(** What one execution does that can be observed: UI output, the file it
    writes, and the calls to the collaborators. *)
Inductive Event : Type :=
| StHeader (text : string)
| StSubheader (text : string)
| StWrite (v : PyVal)
| StInfo (text : string)
| StSuccess (text : string)
| StError (text : string)
| StWarning (text : string)
| StImage (img : Image)
| SidebarSubheader (text : string)
| SidebarMarkdown (html : string)
| WriteFile (path : string) (content : string)
| LidaSummarize (path method : string) (cfg : TextGenerationConfig)
| LidaGoals (summary : PyVal) (n : Z) (cfg : TextGenerationConfig)
| LidaVisualize (summary goal : PyVal) (cfg : TextGenerationConfig) (library : option string)
| DriveFilesCreate (body : list (string * PyVal)) (img : Image) (fields : string)
| RequestsPost (url : string) (headers : list (string * PyVal)) (data : PyVal).

(** The calls that leave the process. *)
Definition is_service_call (ev : Event) : bool :=
  match ev with
  | LidaSummarize _ _ _ | LidaGoals _ _ _ | LidaVisualize _ _ _ _
  | DriveFilesCreate _ _ _ | RequestsPost _ _ _ => true
  | _ => false
  end.

Definition is_st_error (ev : Event) : bool :=
  match ev with StError _ => true | _ => false end.

(** ** The script monad *)

(** A piece of script: from the session state to an outcome, the session
    state reached and the events produced, oldest first.  A raised
    exception keeps the state and the events. *)
Definition M (A : Type) : Type :=
  SessionState -> Outcome A * SessionState * list Event.

Definition ret {A} (a : A) : M A := fun s => (Ok a, s, []).

Definition bind {A B} (m : M A) (k : A -> M B) : M B :=
  fun s =>
    match m s with
    | (Ok a, s1, t1) =>
        match k a s1 with
        | (r, s2, t2) => (r, s2, t1 ++ t2)
        end
    | (Raise e, s1, t1) => (Raise e, s1, t1)
    end.

Notation "x <- m ;; k" := (bind m (fun x => k))
  (at level 61, m at next level, right associativity).
Notation "m ;; k" := (bind m (fun _ => k))
  (at level 61, right associativity).

Definition raise {A} (e : Exn) : M A := fun s => (Raise e, s, []).

Definition emit (ev : Event) : M unit := fun s => (Ok tt, s, [ev]).

(** A call to a collaborator: recorded, then its outcome. *)
Definition call {A} (ev : Event) (r : Outcome A) : M A :=
  fun s => (r, s, [ev]).

(** A library call that stays in the process: only its outcome. *)
Definition lift {A} (r : Outcome A) : M A := fun s => (r, s, []).

Definition get_session : M SessionState := fun s => (Ok s, s, []).

Definition modify_session (f : SessionState -> SessionState) : M unit :=
  fun s => (Ok tt, f s, []).

(** [try: body  except Exception as e: handler e]. *)
Definition try_except (body : M unit) (handler : Exn -> M unit) : M unit :=
  fun s =>
    match body s with
    | (Ok a, s1, t1) => (Ok a, s1, t1)
    | (Raise e, s1, t1) =>
        match handler e s1 with
        | (r, s2, t2) => (r, s2, t1 ++ t2)
        end
    end.

(** [if c: body] with no [else]. *)
Definition when (c : bool) (body : M unit) : M unit :=
  if c then body else ret tt.

(** [for x in xs: body x]. *)
Fixpoint for_each {A} (xs : list A) (body : A -> M unit) : M unit :=
  match xs with
  | [] => ret tt
  | x :: rest => body x ;; for_each rest body
  end.

(** [xs[i]] for a list: [IndexError] out of range. *)
Definition list_index {A} (xs : list A) (i : nat) : M A :=
  match nth_error xs i with
  | Some x => ret x
  | None => raise (IndexError "list index out of range")
  end.

(** ** Streamlit output *)

Definition st_header (text : string) : M unit := emit (StHeader text).
Definition st_subheader (text : string) : M unit := emit (StSubheader text).
Definition st_write (v : PyVal) : M unit := emit (StWrite v).
Definition st_info (text : string) : M unit := emit (StInfo text).
Definition st_success (text : string) : M unit := emit (StSuccess text).
Definition st_error (text : string) : M unit := emit (StError text).
Definition st_warning (text : string) : M unit := emit (StWarning text).
Definition st_image (img : Image) : M unit := emit (StImage img).

(** ** Start of the script: credentials (lines 14-41) *)

(** The module-level names the rest of the script reads.  The Airtable
    names hold what [os.getenv] returned. *)
Record Config : Type := mkConfig {
  openai_api_key : string;
  BASE_ID : option string;
  SUMMARIES_TABLE_NAME : option string;
  VISUALIZATIONS_TABLE_NAME : option string;
  AIRTABLE_PAT : option string;
  drive_service : DriveService
}.

Definition SCOPES : list string := ["https://www.googleapis.com/auth/drive.file"].

Definition SERVICE_ACCOUNT_FILE : string :=
  "https://github.com/ninjaksahni/infera/blob/37fde489e48d10cc1f2fc9f17767052079e87d7e/infera1-49e3d49a0ee5.json".

(** [textgen_config] of line 41. *)
Definition textgen_config : TextGenerationConfig :=
  mkTextGen 1 (5 # 10) (Some "gpt-3.5-turbo") true.

(** [textgen_config] as rebound on lines 193 and 227. *)
Definition textgen_config_low : TextGenerationConfig :=
  mkTextGen 1 (2 # 10) None true.

(** What an f-string inserts for a name bound by [os.getenv]. *)
Definition fmt_opt (o : option string) : string :=
  match o with
  | Some s => s
  | None => "None"
  end.

(** Lines 18-41.  The start stops at one of the two [raise ValueError]
    or when a Drive set-up call raises; building the LIDA manager and the
    generation settings is taken not to fail. *)
Definition startup (ext : Services) : Outcome Config :=
  match getenv ext "OPENAI_API_KEY" with
  | None => Raise (ValueError "OpenAI API key is not set.")
  | Some api_key =>
      let base_id := getenv ext "AIRTABLE_BASE_ID" in
      let summaries := getenv ext "AIRTABLE_SUMMARIES_TABLE_NAME" in
      let visualizations := getenv ext "AIRTABLE_VISUALIZATIONS_TABLE_NAME" in
      let pat := getenv ext "AIRTABLE_PAT" in
      if negb (forallb truthy_opt [base_id; summaries; visualizations; pat])
      then Raise (ValueError "Airtable credentials are not set.")
      else
        match from_service_account_file ext SERVICE_ACCOUNT_FILE SCOPES with
        | Raise e => Raise e
        | Ok credentials =>
            match build ext "drive" "v3" credentials with
            | Raise e => Raise e
            | Ok service =>
                Ok (mkConfig api_key base_id summaries visualizations pat service)
            end
        end
  end.

(** ** Helpers (lines 43-124) *)

Section Helpers.

Variable ext : Services.
Variable cfg : Config.

(** [base64_to_image]: [b64decode] then [Image.open]; neither is
    guarded. *)
Definition base64_to_image (base64_string : string) : M Image :=
  lift (b64decode_open ext base64_string).

Definition file_metadata : list (string * PyVal) :=
  [("name", PyStr "visualization.png"); ("mimeType", PyStr "image/png")].

(** [upload_image_to_drive]: the PNG encoding and the [create(...).execute()]
    request are one collaborator call; the link is [file.get('webViewLink')]. *)
Definition upload_image_to_drive (image : Image) : M PyVal :=
  file <- call (DriveFilesCreate file_metadata image "id, webViewLink")
               (drive_files_create ext file_metadata image "id, webViewLink") ;;
  ret (dict_get file "webViewLink").

Definition airtable_headers : list (string * PyVal) :=
  [("Authorization", PyStr ("Bearer " ++ fmt_opt (AIRTABLE_PAT cfg))%string);
   ("Content-Type", PyStr "application/json")].

Definition airtable_url (table : option string) : string :=
  ("https://api.airtable.com/v0/" ++ fmt_opt (BASE_ID cfg) ++ "/" ++ fmt_opt table)%string.

(** [save_to_airtable_summaries] (lines 68-95). *)
Definition save_to_airtable_summaries (summary : PyVal) : M PyVal :=
  let headers := airtable_headers in
  let summary := if is_dict summary then PyStr (py_str ext summary) else summary in
  let data := PyDict [("fields", PyDict [("Summary Text", summary)])] in
  let url := airtable_url (SUMMARIES_TABLE_NAME cfg) in
  response <- call (RequestsPost url headers data) (requests_post ext url headers data) ;;
  if negb (status_code response =? 200) then
    body <- lift (json response) ;;
    st_error ("Failed to save summary to Airtable: " ++ py_str ext body)%string ;;
    lift (json response)
  else
    lift (json response).

(** [save_to_airtable_visualizations] (lines 97-124). *)
Definition save_to_airtable_visualizations (image_url : PyVal) : M PyVal :=
  let headers := airtable_headers in
  let image_url := if negb (is_str image_url) then PyStr (py_str ext image_url) else image_url in
  let data := PyDict [("fields", PyDict [("Image Link", image_url)])] in
  let url := airtable_url (VISUALIZATIONS_TABLE_NAME cfg) in
  response <- call (RequestsPost url headers data) (requests_post ext url headers data) ;;
  if negb (status_code response =? 200) then
    body <- lift (json response) ;;
    st_error ("Failed to save visualization to Airtable: " ++ py_str ext body)%string ;;
    lift (json response)
  else
    lift (json response).

End Helpers.

(** ** Session state set-up and sidebar (lines 126-162) *)

Definition or_default {A} (o : option A) (d : A) : A :=
  match o with Some a => a | None => d end.

(** Lines 127-137: each absent key gets its default. *)
Definition init_session_state (raw : RawSession) : SessionState :=
  mkSession (or_default (raw_csv_file_path raw) None)
            (or_default (raw_summary raw) None)
            (or_default (raw_generated_charts raw) [])
            (or_default (raw_chart_names raw) []).

Definition to_raw (s : SessionState) : RawSession :=
  mkRaw (Some (csv_file_path s)) (Some (summary s))
        (Some (generated_charts s)) (Some (chart_names s)).

(** A session before the first execution: no key. *)
Definition fresh_session : RawSession := mkRaw None None None None.

Definition dq : string := String (Ascii.ascii_of_nat 34) EmptyString.
Definition nl : string := String (Ascii.ascii_of_nat 10) EmptyString.

(** The f-string of lines 156-161. *)
Definition thumbnail_html (img_data name : string) : string :=
  (nl ++ "        <a href=" ++ dq ++ img_data ++ dq ++ " target=" ++ dq ++ "_blank" ++ dq ++ ">"
   ++ nl ++ "            <img src=" ++ dq ++ img_data ++ dq ++ " width=" ++ dq ++ "100" ++ dq
   ++ " style=" ++ dq ++ "margin: 5px;" ++ dq ++ " />"
   ++ nl ++ "            " ++ name
   ++ nl ++ "        </a>"
   ++ nl ++ "        ")%string.

Definition temp_file_path : string := "/tmp/temp_image.png".

(** Lines 143-162.  Saving an image to the temporary file and reading it
    back in base64 is one collaborator call. *)
Definition sidebar (ext : Services) : M unit :=
  s <- get_session ;;
  when (match generated_charts s with [] => false | _ :: _ => true end)
    (emit (SidebarSubheader "Generated Graphs") ;;
     for_each (combine (chart_names s) (generated_charts s))
       (fun '(name, img) =>
          img_base64 <- lift (image_save_b64 ext img temp_file_path) ;;
          let img_data := ("data:image/png;base64," ++ img_base64)%string in
          emit (SidebarMarkdown (thumbnail_html img_data name)))).

(** ** The two flows (lines 164-259) *)

(** What the widgets return in one execution. *)
Record Inputs : Type := mkInputs {
  menu : string;
  file_uploader : option string;
  text_area : string;
  button : bool
}.

Section Flows.

Variable ext : Services.
Variable cfg : Config.

Definition set_csv_file_path (p : option string) : M unit :=
  modify_session (fun s =>
    mkSession p (summary s) (generated_charts s) (chart_names s)).

(** [st.session_state.generated_charts.append(img)]. *)
Definition append_generated_chart (img : Image) : M unit :=
  modify_session (fun s =>
    mkSession (csv_file_path s) (summary s) (generated_charts s ++ [img]) (chart_names s)).

(** [st.session_state.chart_names.append(name)]. *)
Definition append_chart_name (name : string) : M unit :=
  modify_session (fun s =>
    mkSession (csv_file_path s) (summary s) (generated_charts s) (chart_names s ++ [name])).

(** Lines 196-199 and 233-236. *)
Definition summary_text_of (summary : PyVal) : PyVal :=
  if is_dict summary then PyStr (py_str ext summary) else summary.

(** Lines 178-183: the summary is saved inside [try]. *)
Definition summarize_save_summary (summary : PyVal) : M unit :=
  try_except
    (result <- save_to_airtable_summaries ext cfg summary ;;
     when (truthy result) (st_success "Summary saved to Airtable successfully!"))
    (fun e => st_error ("Error saving summary to Airtable: " ++ str_exn e)%string).

(** Lines 206-216: upload, display, save the link, remember the chart. *)
Definition summarize_upload_step (img : Image) : M unit :=
  try_except
    (image_url <- upload_image_to_drive ext img ;;
     st_image img ;;
     result <- save_to_airtable_visualizations ext cfg image_url ;;
     when (truthy result)
       (st_success "Visualization saved to Airtable successfully!" ;;
        append_generated_chart img ;;
        append_chart_name "Summary Chart"))
    (fun e => st_error ("Error saving visualization to Airtable: " ++ str_exn e)%string).

(** Lines 173-216: what the Summarize screen does with an uploaded file. *)
Definition summarize_flow (content : string) : M unit :=
  set_csv_file_path (Some "filename.csv") ;;
  s <- get_session ;;
  let path := fmt_opt (csv_file_path s) in
  emit (WriteFile path content) ;;
  summary <- call (LidaSummarize path "default" textgen_config)
                  (lida_summarize ext path "default" textgen_config) ;;
  st_write summary ;;
  summarize_save_summary summary ;;
  goals <- call (LidaGoals summary 2 textgen_config)
                (lida_goals ext summary 2 textgen_config) ;;
  for_each goals st_write ;;
  let i := 0%nat in
  let library := "seaborn" in
  let textgen_config := textgen_config_low in
  let summary_text := summary_text_of summary in
  goal <- list_index goals i ;;
  charts <- call (LidaVisualize summary_text goal textgen_config (Some library))
                 (lida_visualize ext summary_text goal textgen_config (Some library)) ;;
  chart <- list_index charts 0 ;;
  let img_base64_string := raster chart in
  img <- base64_to_image ext img_base64_string ;;
  summarize_upload_step img.

(** Lines 164-216. *)
Definition menu_summarize (inp : Inputs) : M unit :=
  st_header "📊 INFERA ONE 📊" ;;
  st_subheader "Summarization of your Data" ;;
  match file_uploader inp with
  | Some content => summarize_flow content
  | None => ret tt
  end.

(** Lines 248-257: upload, save the link, remember the chart. *)
Definition question_upload_step (img : Image) (user_query : string) : M unit :=
  try_except
    (image_url <- upload_image_to_drive ext img ;;
     result <- save_to_airtable_visualizations ext cfg image_url ;;
     when (truthy result)
       (st_success "Visualization saved to Airtable successfully!" ;;
        append_generated_chart img ;;
        append_chart_name user_query))
    (fun e => st_error ("Error saving visualization to Airtable: " ++ str_exn e)%string).

(** Lines 224-257: what the Question screen does with a non-empty query. *)
Definition question_flow (path : option string) (query : string) : M unit :=
  st_info ("Your Query: " ++ query)%string ;;
  let textgen_config := textgen_config_low in
  summary <- call (LidaSummarize (fmt_opt path) "default" textgen_config)
                  (lida_summarize ext (fmt_opt path) "default" textgen_config) ;;
  let summary_text := summary_text_of summary in
  let user_query := query in
  charts <- call (LidaVisualize summary_text (PyStr user_query) textgen_config None)
                 (lida_visualize ext summary_text (PyStr user_query) textgen_config None) ;;
  chart <- list_index charts 0 ;;
  let img_base64_string := raster chart in
  img <- base64_to_image ext img_base64_string ;;
  st_image img ;;
  question_upload_step img user_query.

(** Lines 218-259. *)
Definition menu_question (inp : Inputs) : M unit :=
  st_subheader "Query your Data to Generate Graph" ;;
  s <- get_session ;;
  if truthy_opt (csv_file_path s) then
    when (button inp)
      (when (0 <? Z.of_nat (String.length (text_area inp)))
         (question_flow (csv_file_path s) (text_area inp)))
  else
    st_warning "Please upload a CSV file first.".

(** Lines 164-259: the screen chosen in the menu. *)
Definition screen (inp : Inputs) : M unit :=
  if (menu inp =? "Summarize")%string then menu_summarize inp
  else if (menu inp =? "Question based Graph")%string then menu_question inp
  else ret tt.

(** Lines 139-259: the sidebar, then the screen. *)
Definition page (inp : Inputs) : M unit :=
  sidebar ext ;;
  screen inp.

End Flows.

(** One execution of the whole script on the session it finds.  When the
    start raises, nothing below line 37 runs: the session keeps its keys
    and nothing is shown or called. *)
Definition script (ext : Services) (inp : Inputs) (raw : RawSession)
  : Outcome unit * RawSession * list Event :=
  match startup ext with
  | Raise e => (Raise e, raw, [])
  | Ok cfg =>
      match page ext cfg inp (init_session_state raw) with
      | (r, s, t) => (r, to_raw s, t)
      end
  end.

(** A session: the executions triggered by successive interactions, each
    with the collaborators as they answer at that time. *)
Fixpoint run_session (runs : list (Services * Inputs)) (raw : RawSession) : RawSession :=
  match runs with
  | [] => raw
  | (ext, inp) :: rest =>
      match script ext inp raw with
      | (_, raw', _) => run_session rest raw'
      end
  end.

(** ** Vocabulary of the specification *)

(** A 2xx status code. *)
Definition is_2xx (code : Z) : bool := (200 <=? code) && (code <? 300).

(** The JSON record sent for a summary and for an image link. *)
Definition summary_record (ext : Services) (summary : PyVal) : PyVal :=
  PyDict [("fields",
           PyDict [("Summary Text",
                    if is_dict summary then PyStr (py_str ext summary) else summary)])].

Definition link_record (ext : Services) (image_url : PyVal) : PyVal :=
  PyDict [("fields",
           PyDict [("Image Link",
                    if negb (is_str image_url) then PyStr (py_str ext image_url)
                    else image_url)])].

(** The POST of a summary and of an image link, as events and as calls. *)
Definition post_summary_event (ext : Services) (cfg : Config) (summary : PyVal) : Event :=
  RequestsPost (airtable_url cfg (SUMMARIES_TABLE_NAME cfg)) (airtable_headers cfg)
               (summary_record ext summary).

Definition post_summary (ext : Services) (cfg : Config) (summary : PyVal) : Outcome Response :=
  requests_post ext (airtable_url cfg (SUMMARIES_TABLE_NAME cfg)) (airtable_headers cfg)
                (summary_record ext summary).

Definition post_link_event (ext : Services) (cfg : Config) (image_url : PyVal) : Event :=
  RequestsPost (airtable_url cfg (VISUALIZATIONS_TABLE_NAME cfg)) (airtable_headers cfg)
               (link_record ext image_url).

Definition post_link (ext : Services) (cfg : Config) (image_url : PyVal) : Outcome Response :=
  requests_post ext (airtable_url cfg (VISUALIZATIONS_TABLE_NAME cfg)) (airtable_headers cfg)
                (link_record ext image_url).

(** The Drive request of [upload_image_to_drive]. *)
Definition drive_event (img : Image) : Event :=
  DriveFilesCreate file_metadata img "id, webViewLink".

Definition drive_create (ext : Services) (img : Image) : Outcome (list (string * PyVal)) :=
  drive_files_create ext file_metadata img "id, webViewLink".

(** The messages of the guarded visualization step. *)
Definition saved_message : string := "Visualization saved to Airtable successfully!".

Definition save_error (e : Exn) : Event :=
  StError ("Error saving visualization to Airtable: " ++ str_exn e)%string.

Definition failed_link (ext : Services) (body : PyVal) : Event :=
  StError ("Failed to save visualization to Airtable: " ++ py_str ext body)%string.

(** Uploading [img] or persisting its link raises [e]: the Drive request
    raises, or the POST raises, or decoding the response raises. *)
Definition upload_or_persist_raises (ext : Services) (cfg : Config) (img : Image) (e : Exn)
  : Prop :=
  drive_create ext img = Raise e \/
  (exists file,
      drive_create ext img = Ok file /\
      (post_link ext cfg (dict_get file "webViewLink") = Raise e \/
       exists response,
         post_link ext cfg (dict_get file "webViewLink") = Ok response /\
         json response = Raise e)).

(** Persisting the summary raises [e]: the POST raises, or decoding the
    response raises. *)
Definition persist_summary_raises (ext : Services) (cfg : Config) (v : PyVal) (e : Exn)
  : Prop :=
  post_summary ext cfg v = Raise e \/
  (exists response, post_summary ext cfg v = Ok response /\ json response = Raise e).

(** One of the required credentials is missing: an environment variable
    is not set, or the service-account key file cannot be loaded. *)
Definition credential_missing (ext : Services) : Prop :=
  getenv ext "OPENAI_API_KEY" = None \/
  getenv ext "AIRTABLE_BASE_ID" = None \/
  getenv ext "AIRTABLE_SUMMARIES_TABLE_NAME" = None \/
  getenv ext "AIRTABLE_VISUALIZATIONS_TABLE_NAME" = None \/
  getenv ext "AIRTABLE_PAT" = None \/
  (exists e, from_service_account_file ext SERVICE_ACCOUNT_FILE SCOPES = Raise e).

(** The session once the uploaded file has been recorded (line 169). *)
Definition with_csv (s : SessionState) : SessionState :=
  mkSession (Some "filename.csv") (summary s) (generated_charts s) (chart_names s).

(** What the guarded summary step (lines 178-183) shows and calls. *)
Definition summary_step_events (ext : Services) (cfg : Config) (v : PyVal) : list Event :=
  post_summary_event ext cfg v ::
  match post_summary ext cfg v with
  | Raise e => [StError ("Error saving summary to Airtable: " ++ str_exn e)%string]
  | Ok response =>
      match json response with
      | Raise e => [StError ("Error saving summary to Airtable: " ++ str_exn e)%string]
      | Ok body =>
          (if status_code response =? 200 then []
           else [StError ("Failed to save summary to Airtable: " ++ py_str ext body)%string])
          ++ (if truthy body then [StSuccess "Summary saved to Airtable successfully!"]
              else [])
      end
  end.

(** The events of the Summarize flow up to and including the goals. *)
Definition summarize_events_to_goals
    (ext : Services) (cfg : Config) (content : string) (v : PyVal) : list Event :=
  [WriteFile "filename.csv" content;
   LidaSummarize "filename.csv" "default" textgen_config;
   StWrite v]
  ++ summary_step_events ext cfg v
  ++ [LidaGoals v 2 textgen_config].

(** The visualizer calls of the two flows. *)
Definition summarize_visualize_event (ext : Services) (v goal : PyVal) : Event :=
  LidaVisualize (summary_text_of ext v) goal textgen_config_low (Some "seaborn").

Definition question_visualize_event (ext : Services) (v : PyVal) (query : string) : Event :=
  LidaVisualize (summary_text_of ext v) (PyStr query) textgen_config_low None.

(** What one execution may do to the two lists: nothing, or one chart
    and one label appended together. *)
Definition charts_step (s s' : SessionState) : Prop :=
  (generated_charts s' = generated_charts s /\ chart_names s' = chart_names s) \/
  (exists img name,
      generated_charts s' = generated_charts s ++ [img] /\
      chart_names s' = chart_names s ++ [name]).

(** The session once a chart and its label have been appended. *)
Definition remember (img : Image) (name : string) (s : SessionState) : SessionState :=
  mkSession (csv_file_path s) (summary s)
            (generated_charts s ++ [img]) (chart_names s ++ [name]).

(** The two lists have the same length. *)
Definition aligned (s : SessionState) : Prop :=
  length (generated_charts s) = length (chart_names s).

(** The charts with their labels, index by index. *)
Definition chart_records (s : SessionState) : list (Image * string) :=
  combine (generated_charts s) (chart_names s).

(** A piece of script that leaves the session state as it found it. *)
Definition keeps_session {A} (m : M A) : Prop :=
  forall s, exists r t, m s = (r, s, t).

(** ** Vocabulary for the sidebar and for counting calls *)

(** The thumbnail drawn for one (label, chart) pair when the chart's
    PNG reads back as [enc img] in base64. *)
Definition thumbnail (enc : Image -> string) (item : string * Image) : Event :=
  SidebarMarkdown
    (thumbnail_html ("data:image/png;base64," ++ enc (snd item))%string (fst item)).

(** The body of the sidebar loop (lines 146-162). *)
Definition sidebar_item (ext : Services) (item : string * Image) : M unit :=
  let '(name, img) := item in
  img_base64 <- lift (image_save_b64 ext img temp_file_path) ;;
  let img_data := ("data:image/png;base64," ++ img_base64)%string in
  emit (SidebarMarkdown (thumbnail_html img_data name)).

Definition is_sidebar_event (ev : Event) : bool :=
  match ev with
  | SidebarSubheader _ | SidebarMarkdown _ => true
  | _ => false
  end.

Definition is_drive_request (ev : Event) : bool :=
  match ev with DriveFilesCreate _ _ _ => true | _ => false end.

Definition is_post (ev : Event) : bool :=
  match ev with RequestsPost _ _ _ => true | _ => false end.

Definition is_lida_call (ev : Event) : bool :=
  match ev with
  | LidaSummarize _ _ _ | LidaGoals _ _ _ | LidaVisualize _ _ _ _ => true
  | _ => false
  end.

(** How many events of a trace satisfy [p]. *)
Definition count (p : Event -> bool) (t : list Event) : nat := length (filter p t).

(** What a session may become: the summary entry as it was, the CSV
    path as it was or "filename.csv", and the two lists extended by as
    many charts as labels. *)
Definition grows_from (s s' : SessionState) (added : nat) : Prop :=
  summary s' = summary s /\
  (csv_file_path s' = csv_file_path s \/ csv_file_path s' = Some "filename.csv") /\
  exists imgs names,
    generated_charts s' = generated_charts s ++ imgs /\
    chart_names s' = chart_names s ++ names /\
    length imgs = added /\
    length names = added.

(** ** Test doubles *)

(** Collaborators with fixed answers, as a test of the script would mock
    them; used to run the script on concrete inputs. *)
Module Mock.

Definition env (name : string) : option string :=
  if (name =? "OPENAI_API_KEY")%string then Some "sk-test"
  else if (name =? "AIRTABLE_BASE_ID")%string then Some "appBase"
  else if (name =? "AIRTABLE_SUMMARIES_TABLE_NAME")%string then Some "Summaries"
  else if (name =? "AIRTABLE_VISUALIZATIONS_TABLE_NAME")%string then Some "Visualizations"
  else if (name =? "AIRTABLE_PAT")%string then Some "patToken"
  else None.

(** The environment with one variable removed. *)
Definition env_without (missing name : string) : option string :=
  if (name =? missing)%string then None else env name.

Definition config : Config :=
  mkConfig "sk-test" (Some "appBase") (Some "Summaries") (Some "Visualizations")
           (Some "patToken")
           (DriveClient "drive" "v3" (ServiceAccount SERVICE_ACCOUNT_FILE SCOPES)).

Definition summaries_url : string := "https://api.airtable.com/v0/appBase/Summaries".

(** Collaborators answering with the given outcomes; the summarizer
    returns the text "S". *)
Definition services
    (summary_post link_post : Outcome Response)
    (drive : Outcome (list (string * PyVal)))
    (goals : Outcome (list PyVal))
    (charts : Outcome (list Chart))
    (decoded : Outcome Image) : Services :=
  mkServices env
    (fun file scopes => Ok (ServiceAccount file scopes))
    (fun name version cred => Ok (DriveClient name version cred))
    (fun _ _ _ => Ok (PyStr "S"))
    (fun _ _ _ => goals)
    (fun _ _ _ _ => charts)
    (fun _ => decoded)
    (fun _ _ _ => drive)
    (fun url _ _ => if (url =? summaries_url)%string then summary_post else link_post)
    (fun _ _ => Ok "aW1n")
    (fun _ => "<repr>").

Definition with_env (e : string -> option string) (ext : Services) : Services :=
  mkServices e (from_service_account_file ext) (build ext) (lida_summarize ext)
             (lida_goals ext) (lida_visualize ext) (b64decode_open ext)
             (drive_files_create ext) (requests_post ext) (image_save_b64 ext) (repr ext).

Definition with_key_file (r : Outcome Credentials) (ext : Services) : Services :=
  mkServices (getenv ext) (fun _ _ => r) (build ext) (lida_summarize ext)
             (lida_goals ext) (lida_visualize ext) (b64decode_open ext)
             (drive_files_create ext) (requests_post ext) (image_save_b64 ext) (repr ext).

Definition with_summarizer (r : Outcome PyVal) (ext : Services) : Services :=
  mkServices (getenv ext) (from_service_account_file ext) (build ext) (fun _ _ _ => r)
             (lida_goals ext) (lida_visualize ext) (b64decode_open ext)
             (drive_files_create ext) (requests_post ext) (image_save_b64 ext) (repr ext).

Definition response (code : Z) (body : PyVal) : Outcome Response :=
  Ok (mkResponse code (Ok body)).

Definition created : PyVal := PyDict [("id", PyStr "rec1")].
Definition error_body : PyVal := PyDict [("error", PyStr "SERVER_ERROR")].
Definition drive_file : list (string * PyVal) :=
  [("id", PyStr "f1"); ("webViewLink", PyStr "https://drive.example/f1")].
Definition link : PyVal := PyStr "https://drive.example/f1".
Definition goal1 : PyVal := PyStr "goal 1".
Definition goal2 : PyVal := PyStr "goal 2".
Definition chart : Chart := mkChart "cmFzdGVy".
Definition image : Image := PILImage "png".
Definition timeout : Exn := mkExn "ConnectionError" "connection timed out".
Definition bad_padding : Exn := mkExn "binascii.Error" "Incorrect padding".
Definition not_json : Exn := mkExn "JSONDecodeError" "Expecting value: line 1 column 1 (char 0)".
Definition no_key_file : Exn := mkExn "FileNotFoundError" "[Errno 2] No such file or directory".

(** Every collaborator succeeds. *)
Definition happy : Services :=
  services (response 200 created) (response 200 created) (Ok drive_file)
           (Ok [goal1; goal2]) (Ok [chart]) (Ok image).

(** Both saves answer 201 Created. *)
Definition created_201 : Services :=
  services (response 201 created) (response 201 created) (Ok drive_file)
           (Ok [goal1; goal2]) (Ok [chart]) (Ok image).

(** The link save answers 500 with a body that is not JSON. *)
Definition link_save_500_not_json : Services :=
  services (response 200 created) (Ok (mkResponse 500 (Raise not_json))) (Ok drive_file)
           (Ok [goal1; goal2]) (Ok [chart]) (Ok image).

(** The link save answers 500 with a JSON error object. *)
Definition link_save_500 : Services :=
  services (response 200 created) (response 500 error_body) (Ok drive_file)
           (Ok [goal1; goal2]) (Ok [chart]) (Ok image).

(** The summary POST raises. *)
Definition summary_save_down : Services :=
  services (Raise timeout) (response 200 created) (Ok drive_file)
           (Ok [goal1; goal2]) (Ok [chart]) (Ok image).

(** The Drive request raises. *)
Definition drive_down : Services :=
  services (response 200 created) (response 200 created) (Raise timeout)
           (Ok [goal1; goal2]) (Ok [chart]) (Ok image).

(** The raster does not decode. *)
Definition undecodable : Services :=
  services (response 200 created) (response 200 created) (Ok drive_file)
           (Ok [goal1; goal2]) (Ok [chart]) (Raise bad_padding).

(** The goal generator returns no goal. *)
Definition no_goals : Services :=
  services (response 200 created) (response 200 created) (Ok drive_file)
           (Ok []) (Ok [chart]) (Ok image).

(** The visualizer returns no chart. *)
Definition no_charts : Services :=
  services (response 200 created) (response 200 created) (Ok drive_file)
           (Ok [goal1; goal2]) (Ok []) (Ok image).

Definition empty_session : SessionState := mkSession None None [] [].
Definition uploaded_session : SessionState := mkSession (Some "filename.csv") None [] [].

Definition upload_csv : Inputs := mkInputs "Summarize" (Some "a,b") "" false.
Definition ask (query : string) : Inputs := mkInputs "Question based Graph" None query true.

(** The thumbnail of every image is written and read back. *)
Definition encoded (img : Image) : string := "aW1n".

(** Writing the thumbnail of [bad] fails; the others are written. *)
Definition with_unwritable (bad : Image) (e : Exn) (ext : Services) : Services :=
  mkServices (getenv ext) (from_service_account_file ext) (build ext) (lida_summarize ext)
             (lida_goals ext) (lida_visualize ext) (b64decode_open ext)
             (drive_files_create ext) (requests_post ext)
             (fun img path => match img, bad with
                              | PILImage a, PILImage b =>
                                  if (a =? b)%string then Raise e else Ok "aW1n"
                              end)
             (repr ext).

Definition with_build (r : Outcome DriveService) (ext : Services) : Services :=
  mkServices (getenv ext) (from_service_account_file ext) (fun _ _ _ => r)
             (lida_summarize ext) (lida_goals ext) (lida_visualize ext) (b64decode_open ext)
             (drive_files_create ext) (requests_post ext) (image_save_b64 ext) (repr ext).


Definition no_upload : Inputs := mkInputs "Summarize" None "" false.

Definition image2 : Image := PILImage "png2".
Definition disk_full : Exn := mkExn "OSError" "[Errno 28] No space left on device".

(** A session holding two charts. *)
Definition two_charts : SessionState :=
  mkSession (Some "filename.csv") None [image; image2] ["Summary Chart"; "sales by region"].

(** The link save answers 200 with an empty JSON object. *)
Definition link_save_200_empty : Services :=
  services (response 200 created) (response 200 (PyDict [])) (Ok drive_file)
           (Ok [goal1; goal2]) (Ok [chart]) (Ok image).

(** The summary save answers 500 with a JSON error object. *)
Definition summary_save_500 : Services :=
  services (response 500 error_body) (response 200 created) (Ok drive_file)
           (Ok [goal1; goal2]) (Ok [chart]) (Ok image).

(** Drive answers without a [webViewLink]. *)
Definition drive_without_link : Services :=
  services (response 200 created) (response 200 created) (Ok [("id", PyStr "f1")])
           (Ok [goal1; goal2]) (Ok [chart]) (Ok image).

End Mock.

(** * Properties *)

(** ** Running the monad *)

Lemma bind_ok {A B} (m : M A) (k : A -> M B) s a s1 t1 :
  m s = (Ok a, s1, t1) ->
  bind m k s = (let '(r, s2, t2) := k a s1 in (r, s2, t1 ++ t2)).
Proof. intros H. unfold bind. rewrite H. destruct (k a s1) as [[r s2] t2]. reflexivity. Qed.

Lemma bind_raise {A B} (m : M A) (k : A -> M B) s e s1 t1 :
  m s = (Raise e, s1, t1) ->
  bind m k s = (Raise e, s1, t1).
Proof. intros H. unfold bind. rewrite H. reflexivity. Qed.

Lemma try_except_ok (body : M unit) handler s s1 t1 :
  body s = (Ok tt, s1, t1) ->
  try_except body handler s = (Ok tt, s1, t1).
Proof. intros H. unfold try_except. rewrite H. reflexivity. Qed.

Lemma try_except_raise (body : M unit) handler s e s1 t1 :
  body s = (Raise e, s1, t1) ->
  try_except body handler s = (let '(r, s2, t2) := handler e s1 in (r, s2, t1 ++ t2)).
Proof.
  intros H. unfold try_except. rewrite H.
  destruct (handler e s1) as [[r s2] t2]. reflexivity.
Qed.

Lemma for_each_st_write (vs : list PyVal) s :
  for_each vs st_write s = (Ok tt, s, map StWrite vs).
Proof.
  induction vs as [|v vs IH]; simpl.
  - reflexivity.
  - unfold bind. simpl. rewrite IH. reflexivity.
Qed.

(** ** Pieces that leave the session alone *)

Lemma keeps_ret {A} (a : A) : keeps_session (ret a).
Proof. intros s. now exists (Ok a), []. Qed.

Lemma keeps_raise {A} (e : Exn) : keeps_session (@raise A e).
Proof. intros s. now exists (Raise e), []. Qed.

Lemma keeps_emit ev : keeps_session (emit ev).
Proof. intros s. now exists (Ok tt), [ev]. Qed.

Lemma keeps_call {A} ev (r : Outcome A) : keeps_session (call ev r).
Proof. intros s. now exists r, [ev]. Qed.

Lemma keeps_lift {A} (r : Outcome A) : keeps_session (lift r).
Proof. intros s. now exists r, []. Qed.

Lemma keeps_get : keeps_session get_session.
Proof. intros s. now exists (Ok s), []. Qed.

Lemma keeps_bind {A B} (m : M A) (k : A -> M B) :
  keeps_session m -> (forall a, keeps_session (k a)) -> keeps_session (bind m k).
Proof.
  intros Hm Hk s. destruct (Hm s) as (r & t & E). destruct r as [a|e].
  - destruct (Hk a s) as (r2 & t2 & E2).
    exists r2, (t ++ t2). rewrite (bind_ok _ _ _ _ _ _ E), E2. reflexivity.
  - exists (Raise e), t. now rewrite (bind_raise _ _ _ _ _ _ E).
Qed.

Lemma keeps_try body handler :
  keeps_session body -> (forall e, keeps_session (handler e)) ->
  keeps_session (try_except body handler).
Proof.
  intros Hb Hh s. destruct (Hb s) as (r & t & E). destruct r as [[]|e].
  - exists (Ok tt), t. now rewrite (try_except_ok _ _ _ _ _ E).
  - destruct (Hh e s) as (r2 & t2 & E2).
    exists r2, (t ++ t2). rewrite (try_except_raise _ _ _ _ _ _ E), E2. reflexivity.
Qed.

Lemma keeps_when c body : keeps_session body -> keeps_session (when c body).
Proof. intros H. destruct c; simpl; [exact H | apply keeps_ret]. Qed.

Lemma keeps_for_each {A} (xs : list A) body :
  (forall x, keeps_session (body x)) -> keeps_session (for_each xs body).
Proof.
  intros H. induction xs as [|x xs IH]; simpl.
  - apply keeps_ret.
  - apply keeps_bind; [apply H | intros _; exact IH].
Qed.

Lemma keeps_list_index {A} (xs : list A) i : keeps_session (list_index xs i).
Proof.
  unfold list_index. destruct (nth_error xs i); [apply keeps_ret | apply keeps_raise].
Qed.

Create HintDb session.
#[export] Hint Resolve keeps_ret keeps_raise keeps_emit keeps_call keeps_lift keeps_get
  keeps_when keeps_list_index : session.

Ltac keeps :=
  repeat first
    [ progress intros
    | apply keeps_bind
    | apply keeps_try
    | apply keeps_for_each
    | solve [auto with session]
    | match goal with |- keeps_session (if ?c then _ else _) => destruct c end
    | match goal with |- keeps_session (match ?x with _ => _ end) => destruct x end ].

Lemma keeps_save_summaries ext cfg v : keeps_session (save_to_airtable_summaries ext cfg v).
Proof. unfold save_to_airtable_summaries, st_error. keeps. Qed.

Lemma keeps_save_visualizations ext cfg v :
  keeps_session (save_to_airtable_visualizations ext cfg v).
Proof. unfold save_to_airtable_visualizations, st_error. keeps. Qed.

Lemma keeps_upload ext img : keeps_session (upload_image_to_drive ext img).
Proof. unfold upload_image_to_drive. keeps. Qed.

Lemma keeps_sidebar ext : keeps_session (sidebar ext).
Proof.
  unfold sidebar. apply keeps_bind; [apply keeps_get | intros s].
  apply keeps_when, keeps_bind; [apply keeps_emit | intros _].
  apply keeps_for_each. intros [name img]. keeps.
Qed.

(** ** The helpers, call by call *)

Lemma upload_image_to_drive_run ext img s :
  upload_image_to_drive ext img s =
  match drive_create ext img with
  | Ok file => (Ok (dict_get file "webViewLink"), s, [drive_event img])
  | Raise e => (Raise e, s, [drive_event img])
  end.
Proof.
  unfold upload_image_to_drive, drive_create, drive_event, bind, call, ret.
  destruct (drive_files_create ext file_metadata img "id, webViewLink"); reflexivity.
Qed.

Lemma save_to_airtable_summaries_run ext cfg v s :
  save_to_airtable_summaries ext cfg v s =
  match post_summary ext cfg v with
  | Raise e => (Raise e, s, [post_summary_event ext cfg v])
  | Ok response =>
      match json response with
      | Raise e => (Raise e, s, [post_summary_event ext cfg v])
      | Ok body =>
          (Ok body, s,
           post_summary_event ext cfg v ::
           (if status_code response =? 200 then []
            else [StError ("Failed to save summary to Airtable: " ++ py_str ext body)%string]))
      end
  end.
Proof.
  unfold save_to_airtable_summaries, post_summary, post_summary_event, summary_record,
    bind, call, lift, st_error, emit.
  destruct (requests_post ext _ _ _) as [response|e]; [|reflexivity].
  destruct (status_code response =? 200); simpl;
    destruct (json response) as [body|e]; reflexivity.
Qed.

Lemma save_to_airtable_visualizations_run ext cfg v s :
  save_to_airtable_visualizations ext cfg v s =
  match post_link ext cfg v with
  | Raise e => (Raise e, s, [post_link_event ext cfg v])
  | Ok response =>
      match json response with
      | Raise e => (Raise e, s, [post_link_event ext cfg v])
      | Ok body =>
          (Ok body, s,
           post_link_event ext cfg v ::
           (if status_code response =? 200 then []
            else [StError ("Failed to save visualization to Airtable: " ++ py_str ext body)%string]))
      end
  end.
Proof.
  unfold save_to_airtable_visualizations, post_link, post_link_event, link_record,
    bind, call, lift, st_error, emit.
  destruct (requests_post ext _ _ _) as [response|e]; [|reflexivity].
  destruct (status_code response =? 200); simpl;
    destruct (json response) as [body|e]; reflexivity.
Qed.

(** ** C1: which responses count as success *)

(** C1 (as stated, refuted): the claim says every 2xx response to a save
    call is a success and that a failure body is never raised.  A 201
    response is a 2xx response, yet both save functions show its body as
    an error; and a 500 response whose body is not JSON makes
    [response.json()] raise out of the save function. *)
Lemma save_treats_201_as_failure :
  is_2xx 201 = true /\
  save_to_airtable_summaries
    Mock.created_201 Mock.config (PyStr "S") Mock.empty_session
  = (Ok Mock.created, Mock.empty_session,
     [RequestsPost "https://api.airtable.com/v0/appBase/Summaries"
        [("Authorization", PyStr "Bearer patToken"); ("Content-Type", PyStr "application/json")]
        (PyDict [("fields", PyDict [("Summary Text", PyStr "S")])]);
      StError "Failed to save summary to Airtable: <repr>"]) /\
  save_to_airtable_visualizations
    Mock.created_201 Mock.config Mock.link Mock.empty_session
  = (Ok Mock.created, Mock.empty_session,
     [RequestsPost "https://api.airtable.com/v0/appBase/Visualizations"
        [("Authorization", PyStr "Bearer patToken"); ("Content-Type", PyStr "application/json")]
        (PyDict [("fields", PyDict [("Image Link", PyStr "https://drive.example/f1")])]);
      StError "Failed to save visualization to Airtable: <repr>"]) /\
  is_2xx 500 = false /\
  save_to_airtable_visualizations
    Mock.link_save_500_not_json Mock.config Mock.link Mock.empty_session
  = (Raise Mock.not_json, Mock.empty_session,
     [RequestsPost "https://api.airtable.com/v0/appBase/Visualizations"
        [("Authorization", PyStr "Bearer patToken"); ("Content-Type", PyStr "application/json")]
        (PyDict [("fields", PyDict [("Image Link", PyStr "https://drive.example/f1")])])]).
Proof. repeat split; vm_compute; reflexivity. Qed.

(** C1 (amended): for every response that [requests.post] returns to a
    save call, status code 200 is the only success: the decoded body is
    returned and no error is shown.  With any other status code (other
    2xx codes included) the decoded body is shown as an error and
    returned as a value.  This is so when the body decodes as JSON; when
    [response.json()] raises, the save function raises that exception
    after the request.  The session state is untouched in every case. *)
Theorem save_success_is_status_200 ext cfg v s response :
  (post_summary ext cfg v = Ok response ->
   save_to_airtable_summaries ext cfg v s =
   match json response with
   | Ok body =>
       (Ok body, s,
        post_summary_event ext cfg v ::
        (if status_code response =? 200 then []
         else [StError ("Failed to save summary to Airtable: " ++ py_str ext body)%string]))
   | Raise e => (Raise e, s, [post_summary_event ext cfg v])
   end) /\
  (post_link ext cfg v = Ok response ->
   save_to_airtable_visualizations ext cfg v s =
   match json response with
   | Ok body =>
       (Ok body, s,
        post_link_event ext cfg v ::
        (if status_code response =? 200 then []
         else [StError ("Failed to save visualization to Airtable: " ++ py_str ext body)%string]))
   | Raise e => (Raise e, s, [post_link_event ext cfg v])
   end).
Proof.
  split; intros H.
  - rewrite save_to_airtable_summaries_run, H. destruct (json response); reflexivity.
  - rewrite save_to_airtable_visualizations_run, H. destruct (json response); reflexivity.
Qed.

(** ** The three guarded steps, case by case *)

Lemma summarize_save_summary_run ext cfg v s :
  summarize_save_summary ext cfg v s =
  match post_summary ext cfg v with
  | Raise e =>
      (Ok tt, s,
       [post_summary_event ext cfg v;
        StError ("Error saving summary to Airtable: " ++ str_exn e)%string])
  | Ok response =>
      match json response with
      | Raise e =>
          (Ok tt, s,
           [post_summary_event ext cfg v;
            StError ("Error saving summary to Airtable: " ++ str_exn e)%string])
      | Ok body =>
          (Ok tt, s,
           post_summary_event ext cfg v ::
           (if status_code response =? 200 then []
            else [StError ("Failed to save summary to Airtable: " ++ py_str ext body)%string])
           ++ (if truthy body then [StSuccess "Summary saved to Airtable successfully!"]
               else []))
      end
  end.
Proof.
  unfold summarize_save_summary, try_except, bind.
  rewrite save_to_airtable_summaries_run.
  destruct (post_summary ext cfg v) as [response|e]; [|reflexivity].
  destruct (json response) as [body|e]; [|reflexivity].
  destruct (truthy body), (status_code response =? 200); reflexivity.
Qed.

Lemma summarize_upload_step_run ext cfg img s :
  summarize_upload_step ext cfg img s =
  match drive_create ext img with
  | Raise e => (Ok tt, s, [drive_event img; save_error e])
  | Ok file =>
      let image_url := dict_get file "webViewLink" in
      match post_link ext cfg image_url with
      | Raise e =>
          (Ok tt, s,
           [drive_event img; StImage img; post_link_event ext cfg image_url; save_error e])
      | Ok response =>
          match json response with
          | Raise e =>
              (Ok tt, s,
               [drive_event img; StImage img; post_link_event ext cfg image_url; save_error e])
          | Ok body =>
              (Ok tt,
               (if truthy body then remember img "Summary Chart" s else s),
               [drive_event img; StImage img; post_link_event ext cfg image_url]
               ++ (if status_code response =? 200 then [] else [failed_link ext body])
               ++ (if truthy body then [StSuccess saved_message] else []))
          end
      end
  end.
Proof.
  unfold summarize_upload_step, try_except, bind.
  rewrite upload_image_to_drive_run.
  destruct (drive_create ext img) as [file|e]; [|reflexivity].
  cbn zeta. unfold st_image at 1. unfold emit at 1.
  rewrite save_to_airtable_visualizations_run.
  destruct (post_link ext cfg (dict_get file "webViewLink")) as [response|e]; [|reflexivity].
  destruct (json response) as [body|e]; [|reflexivity].
  destruct (truthy body), (status_code response =? 200); reflexivity.
Qed.

Lemma question_upload_step_run ext cfg img query s :
  question_upload_step ext cfg img query s =
  match drive_create ext img with
  | Raise e => (Ok tt, s, [drive_event img; save_error e])
  | Ok file =>
      let image_url := dict_get file "webViewLink" in
      match post_link ext cfg image_url with
      | Raise e =>
          (Ok tt, s, [drive_event img; post_link_event ext cfg image_url; save_error e])
      | Ok response =>
          match json response with
          | Raise e =>
              (Ok tt, s, [drive_event img; post_link_event ext cfg image_url; save_error e])
          | Ok body =>
              (Ok tt,
               (if truthy body then remember img query s else s),
               [drive_event img; post_link_event ext cfg image_url]
               ++ (if status_code response =? 200 then [] else [failed_link ext body])
               ++ (if truthy body then [StSuccess saved_message] else []))
          end
      end
  end.
Proof.
  unfold question_upload_step, try_except, bind.
  rewrite upload_image_to_drive_run.
  destruct (drive_create ext img) as [file|e]; [|reflexivity].
  cbn zeta.
  rewrite save_to_airtable_visualizations_run.
  destruct (post_link ext cfg (dict_get file "webViewLink")) as [response|e]; [|reflexivity].
  destruct (json response) as [body|e]; [|reflexivity].
  destruct (truthy body), (status_code response =? 200); reflexivity.
Qed.

Lemma not_2xx_not_200 code : is_2xx code = false -> (code =? 200) = false.
Proof. unfold is_2xx. intros H. destruct (Z.eqb_spec code 200) as [->|]; [discriminate H | reflexivity]. Qed.

(** ** C9: a failed save with a truthy body still counts as saved *)

(** C9: in both flows, when the Drive upload succeeds and the POST of the
    link comes back with a status code outside 2xx, without any
    exception, and with a truthy body (as every non-empty JSON object
    is), the save function shows the body as an error and returns it;
    the caller's [if result:] then holds: the success message is shown
    and the chart and its label are appended to the session state. *)
Theorem failed_save_is_reported_as_saved
    ext cfg img query s file response body :
  drive_create ext img = Ok file ->
  post_link ext cfg (dict_get file "webViewLink") = Ok response ->
  is_2xx (status_code response) = false ->
  json response = Ok body ->
  truthy body = true ->
  save_to_airtable_visualizations ext cfg (dict_get file "webViewLink") s
  = (Ok body, s,
     [post_link_event ext cfg (dict_get file "webViewLink"); failed_link ext body]) /\
  summarize_upload_step ext cfg img s
  = (Ok tt, remember img "Summary Chart" s,
     [drive_event img; StImage img;
      post_link_event ext cfg (dict_get file "webViewLink");
      failed_link ext body; StSuccess saved_message]) /\
  question_upload_step ext cfg img query s
  = (Ok tt, remember img query s,
     [drive_event img;
      post_link_event ext cfg (dict_get file "webViewLink");
      failed_link ext body; StSuccess saved_message]) /\
  (forall key value rest, truthy (PyDict ((key, value) :: rest)) = true).
Proof.
  intros Hdrive Hpost Hcode Hjson Htruthy.
  apply not_2xx_not_200 in Hcode.
  repeat split.
  - rewrite save_to_airtable_visualizations_run, Hpost, Hjson, Hcode. reflexivity.
  - rewrite summarize_upload_step_run, Hdrive. cbn zeta.
    rewrite Hpost, Hjson, Hcode, Htruthy. reflexivity.
  - rewrite question_upload_step_run, Hdrive. cbn zeta.
    rewrite Hpost, Hjson, Hcode, Htruthy. reflexivity.
Qed.

(** ** The flows, call by call *)

Lemma summarize_save_summary_events ext cfg v s :
  summarize_save_summary ext cfg v s = (Ok tt, s, summary_step_events ext cfg v).
Proof.
  rewrite summarize_save_summary_run. unfold summary_step_events.
  destruct (post_summary ext cfg v) as [response|e]; [|reflexivity].
  destruct (json response); reflexivity.
Qed.

Lemma summarize_flow_run ext cfg content s :
  summarize_flow ext cfg content s =
  match lida_summarize ext "filename.csv" "default" textgen_config with
  | Raise e =>
      (Raise e, with_csv s,
       [WriteFile "filename.csv" content;
        LidaSummarize "filename.csv" "default" textgen_config])
  | Ok v =>
      match lida_goals ext v 2 textgen_config with
      | Raise e => (Raise e, with_csv s, summarize_events_to_goals ext cfg content v)
      | Ok [] =>
          (Raise (IndexError "list index out of range"), with_csv s,
           summarize_events_to_goals ext cfg content v)
      | Ok (goal :: others) =>
          let shown :=
            summarize_events_to_goals ext cfg content v
            ++ map StWrite (goal :: others)
            ++ [summarize_visualize_event ext v goal] in
          match lida_visualize ext (summary_text_of ext v) goal textgen_config_low
                               (Some "seaborn") with
          | Raise e => (Raise e, with_csv s, shown)
          | Ok [] => (Raise (IndexError "list index out of range"), with_csv s, shown)
          | Ok (chart :: _) =>
              match b64decode_open ext (raster chart) with
              | Raise e => (Raise e, with_csv s, shown)
              | Ok img =>
                  match summarize_upload_step ext cfg img (with_csv s) with
                  | (r, s', t) => (r, s', shown ++ t)
                  end
              end
          end
      end
  end.
Proof.
  unfold summarize_flow, summarize_events_to_goals, summarize_visualize_event.
  unfold bind at 1. unfold set_csv_file_path, modify_session.
  unfold bind at 1. unfold get_session. cbn [fmt_opt csv_file_path].
  unfold bind at 1. unfold emit at 1.
  unfold bind at 1. unfold call at 1.
  fold (with_csv s).
  destruct (lida_summarize ext "filename.csv" "default" textgen_config) as [v|e];
    [|reflexivity].
  unfold bind at 1. unfold st_write at 1, emit at 1.
  unfold bind at 1. rewrite summarize_save_summary_events.
  generalize (summary_step_events ext cfg v). intros saved.
  unfold bind at 1. unfold call at 1.
  destruct (lida_goals ext v 2 textgen_config) as [goals|e]; [|reflexivity].
  unfold bind at 1. rewrite for_each_st_write.
  cbn zeta.
  unfold bind at 1. unfold list_index at 1.
  destruct goals as [|goal others]; cbn [nth_error].
  { unfold raise. cbn. reflexivity. }
  unfold ret at 1.
  unfold bind at 1. unfold call at 1.
  destruct (lida_visualize ext (summary_text_of ext v) goal textgen_config_low (Some "seaborn"))
    as [charts|e].
  2:{ cbn. rewrite <- !app_assoc. reflexivity. }
  unfold bind at 1. unfold list_index at 1.
  destruct charts as [|chart more]; cbn [nth_error].
  { unfold raise. cbn. rewrite <- !app_assoc. reflexivity. }
  unfold ret at 1.
  unfold bind at 1. unfold base64_to_image, lift.
  destruct (b64decode_open ext (raster chart)) as [img|e].
  2:{ cbn. rewrite <- !app_assoc. reflexivity. }
  destruct (summarize_upload_step ext cfg img (with_csv s)) as [[r s'] t].
  cbn. rewrite <- !app_assoc. cbn. rewrite <- !app_assoc. reflexivity.
Qed.

Lemma question_flow_run ext cfg path query s :
  question_flow ext cfg path query s =
  match lida_summarize ext (fmt_opt path) "default" textgen_config_low with
  | Raise e =>
      (Raise e, s,
       [StInfo ("Your Query: " ++ query)%string;
        LidaSummarize (fmt_opt path) "default" textgen_config_low])
  | Ok v =>
      let shown :=
        [StInfo ("Your Query: " ++ query)%string;
         LidaSummarize (fmt_opt path) "default" textgen_config_low;
         question_visualize_event ext v query] in
      match lida_visualize ext (summary_text_of ext v) (PyStr query) textgen_config_low None with
      | Raise e => (Raise e, s, shown)
      | Ok [] => (Raise (IndexError "list index out of range"), s, shown)
      | Ok (chart :: _) =>
          match b64decode_open ext (raster chart) with
          | Raise e => (Raise e, s, shown)
          | Ok img =>
              match question_upload_step ext cfg img query s with
              | (r, s', t) => (r, s', shown ++ StImage img :: t)
              end
          end
      end
  end.
Proof.
  unfold question_flow, question_visualize_event.
  unfold bind at 1. unfold st_info at 1, emit at 1. cbn zeta.
  unfold bind at 1. unfold call at 1.
  destruct (lida_summarize ext (fmt_opt path) "default" textgen_config_low) as [v|e];
    [|reflexivity].
  unfold bind at 1. unfold call at 1.
  destruct (lida_visualize ext (summary_text_of ext v) (PyStr query) textgen_config_low None)
    as [charts|e]; [|reflexivity].
  unfold bind at 1. unfold list_index at 1.
  destruct charts as [|chart more]; cbn [nth_error]; [reflexivity|].
  unfold ret at 1.
  unfold bind at 1. unfold base64_to_image, lift.
  destruct (b64decode_open ext (raster chart)) as [img|e]; [|reflexivity].
  unfold bind at 1. unfold st_image at 1, emit at 1.
  destruct (question_upload_step ext cfg img query s) as [[r s'] t].
  reflexivity.
Qed.

Lemma menu_summarize_run ext cfg inp s :
  menu_summarize ext cfg inp s =
  match file_uploader inp with
  | Some content =>
      match summarize_flow ext cfg content s with
      | (r, s', t) =>
          (r, s', StHeader "📊 INFERA ONE 📊" :: StSubheader "Summarization of your Data" :: t)
      end
  | None =>
      (Ok tt, s, [StHeader "📊 INFERA ONE 📊"; StSubheader "Summarization of your Data"])
  end.
Proof.
  unfold menu_summarize, bind, st_header, st_subheader, emit.
  destruct (file_uploader inp) as [content|]; [|reflexivity].
  destruct (summarize_flow ext cfg content s) as [[r s'] t]. reflexivity.
Qed.

Lemma menu_question_run ext cfg inp s :
  menu_question ext cfg inp s =
  if truthy_opt (csv_file_path s) then
    if button inp && (0 <? Z.of_nat (String.length (text_area inp))) then
      match question_flow ext cfg (csv_file_path s) (text_area inp) s with
      | (r, s', t) => (r, s', StSubheader "Query your Data to Generate Graph" :: t)
      end
    else (Ok tt, s, [StSubheader "Query your Data to Generate Graph"])
  else
    (Ok tt, s,
     [StSubheader "Query your Data to Generate Graph";
      StWarning "Please upload a CSV file first."]).
Proof.
  unfold menu_question, bind, st_subheader, st_warning, emit, get_session.
  destruct (truthy_opt (csv_file_path s)); [|reflexivity].
  destruct (button inp); cbn [when andb]; [|reflexivity].
  destruct (0 <? Z.of_nat (String.length (text_area inp))); cbn [when]; [|reflexivity].
  destruct (question_flow ext cfg (csv_file_path s) (text_area inp) s) as [[r s'] t].
  reflexivity.
Qed.

Lemma sidebar_no_charts ext s :
  generated_charts s = [] -> sidebar ext s = (Ok tt, s, []).
Proof.
  intros H. unfold sidebar, bind, get_session. rewrite H. reflexivity.
Qed.

Lemma page_after_sidebar ext cfg inp s shown :
  sidebar ext s = (Ok tt, s, shown) ->
  page ext cfg inp s =
  match screen ext cfg inp s with
  | (r, s', t) => (r, s', shown ++ t)
  end.
Proof.
  intros H. unfold page. rewrite (bind_ok _ _ _ _ _ _ H). reflexivity.
Qed.

Lemma script_after_sidebar ext cfg inp raw shown :
  startup ext = Ok cfg ->
  sidebar ext (init_session_state raw) = (Ok tt, init_session_state raw, shown) ->
  script ext inp raw =
  match screen ext cfg inp (init_session_state raw) with
  | (r, s', t) => (r, to_raw s', shown ++ t)
  end.
Proof.
  intros Hstart Hside. unfold script. rewrite Hstart.
  rewrite (page_after_sidebar _ _ _ _ _ Hside).
  destruct (screen ext cfg inp (init_session_state raw)) as [[r s'] t]. reflexivity.
Qed.

(** ** What a flow can do to the session *)

Lemma summarize_upload_step_session ext cfg img s :
  exists s' t,
    summarize_upload_step ext cfg img s = (Ok tt, s', t) /\
    (s' = s \/ (s' = remember img "Summary Chart" s /\ In (StImage img) t)).
Proof.
  rewrite summarize_upload_step_run.
  destruct (drive_create ext img) as [file|e]; [|eauto].
  cbn zeta.
  destruct (post_link ext cfg (dict_get file "webViewLink")) as [response|e]; [|eauto].
  destruct (json response) as [body|e]; [|eauto].
  destruct (truthy body); [|eauto].
  eexists. eexists. split; [reflexivity|]. right. split; [reflexivity|].
  right. left. reflexivity.
Qed.

Lemma question_upload_step_session ext cfg img query s :
  exists s' t,
    question_upload_step ext cfg img query s = (Ok tt, s', t) /\
    (s' = s \/ s' = remember img query s).
Proof.
  rewrite question_upload_step_run.
  destruct (drive_create ext img) as [file|e]; [|eauto].
  cbn zeta.
  destruct (post_link ext cfg (dict_get file "webViewLink")) as [response|e]; [|eauto].
  destruct (json response) as [body|e]; [|eauto].
  destruct (truthy body); eauto.
Qed.

Lemma summarize_flow_session ext cfg content s :
  exists r s' t,
    summarize_flow ext cfg content s = (r, s', t) /\
    (s' = with_csv s \/
     exists img, s' = remember img "Summary Chart" (with_csv s) /\ In (StImage img) t).
Proof.
  rewrite summarize_flow_run.
  destruct (lida_summarize ext "filename.csv" "default" textgen_config) as [v|e];
    [|solve [eauto 10]].
  destruct (lida_goals ext v 2 textgen_config) as [[|goal others]|e];
    [solve [eauto 10]| |solve [eauto 10]].
  cbn zeta.
  destruct (lida_visualize ext (summary_text_of ext v) goal textgen_config_low (Some "seaborn"))
    as [[|chart more]|e]; [solve [eauto 10]| |solve [eauto 10]].
  destruct (b64decode_open ext (raster chart)) as [img|e]; [|solve [eauto 10]].
  destruct (summarize_upload_step_session ext cfg img (with_csv s)) as (s' & t & E & Hs).
  rewrite E. destruct Hs as [->|[-> Hin]]; [solve [eauto 12]|].
  eexists. eexists. eexists. split; [reflexivity|]. right. exists img.
  split; [reflexivity|]. apply in_or_app. right. exact Hin.
Qed.

Lemma question_flow_session ext cfg path query s :
  exists r s' t,
    question_flow ext cfg path query s = (r, s', t) /\
    (s' = s \/ exists img, s' = remember img query s /\ In (StImage img) t).
Proof.
  rewrite question_flow_run.
  destruct (lida_summarize ext (fmt_opt path) "default" textgen_config_low) as [v|e];
    [|solve [eauto 10]].
  cbn zeta.
  destruct (lida_visualize ext (summary_text_of ext v) (PyStr query) textgen_config_low None)
    as [[|chart more]|e]; [solve [eauto 10]| |solve [eauto 10]].
  destruct (b64decode_open ext (raster chart)) as [img|e]; [|solve [eauto 10]].
  destruct (question_upload_step_session ext cfg img query s) as (s' & t & E & Hs).
  rewrite E. destruct Hs as [->| ->]; [solve [eauto 12]|].
  eexists. eexists. eexists. split; [reflexivity|]. right. exists img.
  split; [reflexivity|]. cbn. tauto.
Qed.

Lemma aligned_remember img name s : aligned s -> aligned (remember img name s).
Proof. unfold aligned, remember. cbn. rewrite !length_app. cbn. lia. Qed.

Lemma chart_records_remember img name s :
  aligned s -> chart_records (remember img name s) = chart_records s ++ [(img, name)].
Proof.
  unfold aligned, chart_records, remember. cbn.
  generalize (chart_names s). induction (generated_charts s) as [|c cs IH];
    intros [|n ns] H; cbn in *; try discriminate; [reflexivity|].
  f_equal. apply IH. lia.
Qed.

(** ** C2: the two lists stay aligned *)

Lemma charts_step_aligned s s' : charts_step s s' -> aligned s -> aligned s'.
Proof.
  unfold charts_step, aligned. intros [[Hc Hn]|(img & name & Hc & Hn)] H;
    rewrite Hc, Hn; [exact H|].
  rewrite !length_app. cbn. lia.
Qed.

Lemma menu_summarize_session ext cfg inp s :
  exists r s' t,
    menu_summarize ext cfg inp s = (r, s', t) /\
    (s' = s \/ s' = with_csv s \/
     exists img, s' = remember img "Summary Chart" (with_csv s) /\ In (StImage img) t).
Proof.
  rewrite menu_summarize_run. destruct (file_uploader inp) as [content|].
  - destruct (summarize_flow_session ext cfg content s) as (r & s' & t & E & Hs).
    rewrite E. destruct Hs as [->|(img & -> & Hin)]; [solve [eauto 10]|].
    eexists. eexists. eexists. split; [reflexivity|]. right. right. exists img.
    split; [reflexivity|]. right. right. exact Hin.
  - eauto 10.
Qed.

Lemma menu_question_session ext cfg inp s :
  exists r s' t,
    menu_question ext cfg inp s = (r, s', t) /\
    (s' = s \/ exists img, s' = remember img (text_area inp) s /\ In (StImage img) t).
Proof.
  rewrite menu_question_run.
  destruct (truthy_opt (csv_file_path s)); [|eauto 10].
  destruct (button inp && (0 <? Z.of_nat (String.length (text_area inp)))); [|eauto 10].
  destruct (question_flow_session ext cfg (csv_file_path s) (text_area inp) s)
    as (r & s' & t & E & Hs).
  rewrite E. destruct Hs as [->|(img & -> & Hin)]; [solve [eauto 10]|].
  eexists. eexists. eexists. split; [reflexivity|]. right. exists img.
  split; [reflexivity|]. right. exact Hin.
Qed.

Lemma page_session ext cfg inp s :
  exists r s' t, page ext cfg inp s = (r, s', t) /\ charts_step s s'.
Proof.
  unfold page. destruct (keeps_sidebar ext s) as (r0 & t0 & E0).
  destruct r0 as [[]|e].
  2:{ rewrite (bind_raise _ _ _ _ _ _ E0). exists (Raise e), s, t0. split; [reflexivity|].
      left. split; reflexivity. }
  rewrite (bind_ok _ _ _ _ _ _ E0). unfold screen.
  destruct (menu inp =? "Summarize")%string.
  - destruct (menu_summarize_session ext cfg inp s) as (r & s' & t & E & Hs).
    rewrite E. exists r, s', (t0 ++ t). split; [reflexivity|].
    destruct Hs as [->|[->|(img & -> & _)]].
    + left. split; reflexivity.
    + left. split; reflexivity.
    + right. exists img, "Summary Chart". split; reflexivity.
  - destruct (menu inp =? "Question based Graph")%string.
    + destruct (menu_question_session ext cfg inp s) as (r & s' & t & E & Hs).
      rewrite E. exists r, s', (t0 ++ t). split; [reflexivity|].
      destruct Hs as [->|(img & -> & _)].
      * left. split; reflexivity.
      * right. exists img, (text_area inp). split; reflexivity.
    + exists (Ok tt), s, (t0 ++ []). split; [reflexivity|]. left. split; reflexivity.
Qed.

Lemma init_to_raw s : init_session_state (to_raw s) = s.
Proof. destruct s. reflexivity. Qed.

Lemma script_aligned ext inp raw :
  aligned (init_session_state raw) ->
  match script ext inp raw with
  | (_, raw', _) => aligned (init_session_state raw')
  end.
Proof.
  intros H. unfold script. destruct (startup ext) as [cfg|e]; [|exact H].
  destruct (page_session ext cfg inp (init_session_state raw)) as (r & s' & t & E & Hs).
  rewrite E, init_to_raw. exact (charts_step_aligned _ _ Hs H).
Qed.

Lemma run_session_aligned runs :
  forall raw,
    aligned (init_session_state raw) ->
    aligned (init_session_state (run_session runs raw)).
Proof.
  induction runs as [|[ext inp] rest IH]; intros raw H; cbn [run_session].
  - exact H.
  - pose proof (script_aligned ext inp raw H) as Hs.
    destruct (script ext inp raw) as [[r raw'] t]. apply IH, Hs.
Qed.

(** C2: whatever the collaborators answer, and whether the flow returns
    or raises, a Summarize or a Question execution started with aligned
    lists ends with aligned lists: the chart/label pairs are the ones
    before, or those followed by exactly one new pair, made of the chart
    displayed in this execution and of its label, "Summary Chart"
    (Summarize) or the query text (Question).  Hence the lists are
    aligned after any sequence of executions of the script in a session
    that started without the keys. *)
Theorem charts_and_names_stay_aligned ext cfg inp s :
  aligned s ->
  (exists r s' t,
      menu_summarize ext cfg inp s = (r, s', t) /\
      aligned s' /\
      (chart_records s' = chart_records s \/
       exists img,
         In (StImage img) t /\
         chart_records s' = chart_records s ++ [(img, "Summary Chart")])) /\
  (exists r s' t,
      menu_question ext cfg inp s = (r, s', t) /\
      aligned s' /\
      (chart_records s' = chart_records s \/
       exists img,
         In (StImage img) t /\
         chart_records s' = chart_records s ++ [(img, text_area inp)])) /\
  (forall runs, aligned (init_session_state (run_session runs fresh_session))).
Proof.
  intros H. split; [|split].
  - destruct (menu_summarize_session ext cfg inp s) as (r & s' & t & E & Hs).
    exists r, s', t. split; [exact E|].
    destruct Hs as [->|[->|(img & -> & Hin)]].
    + split; [exact H | left; reflexivity].
    + split; [exact H | left; reflexivity].
    + split; [apply aligned_remember, H|].
      right. exists img. split; [exact Hin|].
      rewrite chart_records_remember by exact H. reflexivity.
  - destruct (menu_question_session ext cfg inp s) as (r & s' & t & E & Hs).
    exists r, s', t. split; [exact E|].
    destruct Hs as [->|(img & -> & Hin)].
    + split; [exact H | left; reflexivity].
    + split; [apply aligned_remember, H|].
      right. exists img. split; [exact Hin|]. apply chart_records_remember, H.
  - intros runs. apply run_session_aligned. reflexivity.
Qed.

(** ** C5: an exception in the guarded step leaves the session alone *)

Lemma summarize_upload_step_raises ext cfg img s e :
  upload_or_persist_raises ext cfg img e ->
  exists calls,
    summarize_upload_step ext cfg img s = (Ok tt, s, calls ++ [save_error e]) /\
    (calls = [drive_event img] \/
     exists image_url, calls = [drive_event img; StImage img; post_link_event ext cfg image_url]).
Proof.
  intros H. rewrite summarize_upload_step_run.
  destruct H as [H|(file & Hfile & [H|(response & H & Hjson)])].
  - rewrite H. exists [drive_event img]. split; [reflexivity | left; reflexivity].
  - rewrite Hfile. cbn zeta. rewrite H.
    eexists. split; [|right; eexists; reflexivity]. reflexivity.
  - rewrite Hfile. cbn zeta. rewrite H, Hjson.
    eexists. split; [|right; eexists; reflexivity]. reflexivity.
Qed.

Lemma question_upload_step_raises ext cfg img query s e :
  upload_or_persist_raises ext cfg img e ->
  exists calls,
    question_upload_step ext cfg img query s = (Ok tt, s, calls ++ [save_error e]) /\
    (calls = [drive_event img] \/
     exists image_url, calls = [drive_event img; post_link_event ext cfg image_url]).
Proof.
  intros H. rewrite question_upload_step_run.
  destruct H as [H|(file & Hfile & [H|(response & H & Hjson)])].
  - rewrite H. exists [drive_event img]. split; [reflexivity | left; reflexivity].
  - rewrite Hfile. cbn zeta. rewrite H.
    eexists. split; [|right; eexists; reflexivity]. reflexivity.
  - rewrite Hfile. cbn zeta. rewrite H, Hjson.
    eexists. split; [|right; eexists; reflexivity]. reflexivity.
Qed.

(** C5: when uploading the image or persisting its link raises [e], the
    guarded step of either flow returns normally, its last event is the
    error message carrying [e], and the session state after the step is
    the session state before it.  Nothing is undone: in the Summarize
    flow the session still holds the path recorded at upload time and
    the trace still holds the summary POST made earlier; the only events
    after the earlier ones are the attempted calls and the error. *)
Theorem upload_failure_keeps_session ext cfg img query s e :
  upload_or_persist_raises ext cfg img e ->
  (exists calls,
      summarize_upload_step ext cfg img s = (Ok tt, s, calls ++ [save_error e]) /\
      (calls = [drive_event img] \/
       exists image_url,
         calls = [drive_event img; StImage img; post_link_event ext cfg image_url])) /\
  (exists calls,
      question_upload_step ext cfg img query s = (Ok tt, s, calls ++ [save_error e]) /\
      (calls = [drive_event img] \/
       exists image_url, calls = [drive_event img; post_link_event ext cfg image_url])) /\
  (forall content v goal others chart more,
      lida_summarize ext "filename.csv" "default" textgen_config = Ok v ->
      lida_goals ext v 2 textgen_config = Ok (goal :: others) ->
      lida_visualize ext (summary_text_of ext v) goal textgen_config_low (Some "seaborn")
      = Ok (chart :: more) ->
      b64decode_open ext (raster chart) = Ok img ->
      exists calls,
        summarize_flow ext cfg content s
        = (Ok tt, with_csv s,
           (summarize_events_to_goals ext cfg content v
            ++ map StWrite (goal :: others)
            ++ [summarize_visualize_event ext v goal])
           ++ calls ++ [save_error e]) /\
        In (post_summary_event ext cfg v) (summarize_events_to_goals ext cfg content v) /\
        (calls = [drive_event img] \/
         exists image_url,
           calls = [drive_event img; StImage img; post_link_event ext cfg image_url])) /\
  (forall path v chart more,
      lida_summarize ext (fmt_opt path) "default" textgen_config_low = Ok v ->
      lida_visualize ext (summary_text_of ext v) (PyStr query) textgen_config_low None
      = Ok (chart :: more) ->
      b64decode_open ext (raster chart) = Ok img ->
      exists calls,
        question_flow ext cfg path query s
        = (Ok tt, s,
           [StInfo ("Your Query: " ++ query)%string;
            LidaSummarize (fmt_opt path) "default" textgen_config_low;
            question_visualize_event ext v query;
            StImage img]
           ++ calls ++ [save_error e]) /\
        (calls = [drive_event img] \/
         exists image_url, calls = [drive_event img; post_link_event ext cfg image_url])).
Proof.
  intros H. split; [|split; [|split]].
  - exact (summarize_upload_step_raises ext cfg img s e H).
  - exact (question_upload_step_raises ext cfg img query s e H).
  - intros content v goal others chart more Hsum Hgoals Hvis Hdec.
    destruct (summarize_upload_step_raises ext cfg img (with_csv s) e H) as (calls & E & Hc).
    exists calls. split; [|split; [|exact Hc]].
    + rewrite summarize_flow_run, Hsum, Hgoals. cbn zeta. rewrite Hvis, Hdec, E. reflexivity.
    + unfold summarize_events_to_goals, summary_step_events.
      apply in_or_app. right. apply in_or_app. left. left. reflexivity.
  - intros path v chart more Hsum Hvis Hdec.
    destruct (question_upload_step_raises ext cfg img query s e H) as (calls & E & Hc).
    exists calls. split; [|exact Hc].
    rewrite question_flow_run, Hsum. cbn zeta. rewrite Hvis, Hdec, E. reflexivity.
Qed.

(** ** C6: a failed summary save does not stop the Summarize flow *)

Lemma summary_step_events_raises ext cfg v e :
  persist_summary_raises ext cfg v e ->
  summary_step_events ext cfg v =
  [post_summary_event ext cfg v;
   StError ("Error saving summary to Airtable: " ++ str_exn e)%string].
Proof.
  unfold summary_step_events. intros [H|(response & H & Hjson)].
  - rewrite H. reflexivity.
  - rewrite H, Hjson. reflexivity.
Qed.

(** C6: in the Summarize flow, when persisting the summary raises [e]
    the error is shown and the flow goes on: with a goal generator, a
    visualizer, a decoder and an uploader that answer, the goals are
    requested and shown, the visualizer is called on the first goal, and
    the decoded chart is displayed; the flow returns normally. *)
Theorem summary_failure_does_not_block
    ext cfg content s v e goal others chart more img file :
  lida_summarize ext "filename.csv" "default" textgen_config = Ok v ->
  persist_summary_raises ext cfg v e ->
  lida_goals ext v 2 textgen_config = Ok (goal :: others) ->
  lida_visualize ext (summary_text_of ext v) goal textgen_config_low (Some "seaborn")
  = Ok (chart :: more) ->
  b64decode_open ext (raster chart) = Ok img ->
  drive_create ext img = Ok file ->
  exists s' rest,
    summarize_flow ext cfg content s
    = (Ok tt, s',
       [WriteFile "filename.csv" content;
        LidaSummarize "filename.csv" "default" textgen_config;
        StWrite v;
        post_summary_event ext cfg v;
        StError ("Error saving summary to Airtable: " ++ str_exn e)%string;
        LidaGoals v 2 textgen_config]
       ++ map StWrite (goal :: others)
       ++ [summarize_visualize_event ext v goal; drive_event img; StImage img]
       ++ rest).
Proof.
  intros Hsum Hsave Hgoals Hvis Hdec Hdrive.
  rewrite summarize_flow_run, Hsum, Hgoals. cbn zeta. rewrite Hvis, Hdec.
  unfold summarize_events_to_goals. rewrite (summary_step_events_raises _ _ _ _ Hsave).
  rewrite summarize_upload_step_run, Hdrive. cbn zeta.
  destruct (post_link ext cfg (dict_get file "webViewLink")) as [response|e'].
  - destruct (json response) as [body|e'].
    + eexists. eexists. cbn [app]. rewrite <- !app_assoc. cbn [app]. reflexivity.
    + eexists. eexists. cbn [app]. rewrite <- !app_assoc. cbn [app]. reflexivity.
  - eexists. eexists. cbn [app]. rewrite <- !app_assoc. cbn [app]. reflexivity.
Qed.

(** ** C3: which exceptions the script catches *)

(** C3 (as stated, refuted): the raster returned by the visualizer does
    not decode ([binascii.Error]).  The execution of the script ends with
    that exception raised, and the script has shown no error message. *)
Lemma decode_error_escapes_the_script :
  fst (fst (script Mock.undecodable Mock.upload_csv fresh_session))
  = Raise Mock.bad_padding /\
  existsb is_st_error
    (snd (script Mock.undecodable Mock.upload_csv fresh_session))
  = false /\
  fst (fst (menu_question Mock.undecodable Mock.config (Mock.ask "sales by region")
                          Mock.uploaded_session))
  = Raise Mock.bad_padding.
Proof. repeat split; vm_compute; reflexivity. Qed.

(** C3 (amended): the script guards three steps and only those.  An
    exception raised while persisting the summary, uploading the image
    or persisting its link is caught where the step is called: the step
    returns normally and its last event is the error message carrying
    the exception.  An exception raised by the summarizer, the goal
    generator, the visualizer or the decoding of the raster is not
    caught: the flow ends with that exception raised, right after the
    failing call and with nothing shown for it. *)
Theorem only_save_and_upload_are_guarded ext cfg content path query s e :
  (forall v,
      exists t,
        summarize_save_summary ext cfg v s = (Ok tt, s, t) /\
        (persist_summary_raises ext cfg v e ->
         t = [post_summary_event ext cfg v;
              StError ("Error saving summary to Airtable: " ++ str_exn e)%string])) /\
  (forall img,
      exists s' t,
        summarize_upload_step ext cfg img s = (Ok tt, s', t) /\
        (upload_or_persist_raises ext cfg img e ->
         s' = s /\ exists calls, t = calls ++ [save_error e])) /\
  (forall img,
      exists s' t,
        question_upload_step ext cfg img query s = (Ok tt, s', t) /\
        (upload_or_persist_raises ext cfg img e ->
         s' = s /\ exists calls, t = calls ++ [save_error e])) /\
  (lida_summarize ext "filename.csv" "default" textgen_config = Raise e ->
   summarize_flow ext cfg content s
   = (Raise e, with_csv s,
      [WriteFile "filename.csv" content;
       LidaSummarize "filename.csv" "default" textgen_config])) /\
  (forall v,
      lida_summarize ext "filename.csv" "default" textgen_config = Ok v ->
      lida_goals ext v 2 textgen_config = Raise e ->
      summarize_flow ext cfg content s
      = (Raise e, with_csv s, summarize_events_to_goals ext cfg content v)) /\
  (forall v goal others,
      lida_summarize ext "filename.csv" "default" textgen_config = Ok v ->
      lida_goals ext v 2 textgen_config = Ok (goal :: others) ->
      lida_visualize ext (summary_text_of ext v) goal textgen_config_low (Some "seaborn")
      = Raise e ->
      summarize_flow ext cfg content s
      = (Raise e, with_csv s,
         summarize_events_to_goals ext cfg content v
         ++ map StWrite (goal :: others)
         ++ [summarize_visualize_event ext v goal])) /\
  (forall v goal others chart more,
      lida_summarize ext "filename.csv" "default" textgen_config = Ok v ->
      lida_goals ext v 2 textgen_config = Ok (goal :: others) ->
      lida_visualize ext (summary_text_of ext v) goal textgen_config_low (Some "seaborn")
      = Ok (chart :: more) ->
      b64decode_open ext (raster chart) = Raise e ->
      summarize_flow ext cfg content s
      = (Raise e, with_csv s,
         summarize_events_to_goals ext cfg content v
         ++ map StWrite (goal :: others)
         ++ [summarize_visualize_event ext v goal])) /\
  (lida_summarize ext (fmt_opt path) "default" textgen_config_low = Raise e ->
   question_flow ext cfg path query s
   = (Raise e, s,
      [StInfo ("Your Query: " ++ query)%string;
       LidaSummarize (fmt_opt path) "default" textgen_config_low])) /\
  (forall v,
      lida_summarize ext (fmt_opt path) "default" textgen_config_low = Ok v ->
      lida_visualize ext (summary_text_of ext v) (PyStr query) textgen_config_low None
      = Raise e ->
      question_flow ext cfg path query s
      = (Raise e, s,
         [StInfo ("Your Query: " ++ query)%string;
          LidaSummarize (fmt_opt path) "default" textgen_config_low;
          question_visualize_event ext v query])) /\
  (forall v chart more,
      lida_summarize ext (fmt_opt path) "default" textgen_config_low = Ok v ->
      lida_visualize ext (summary_text_of ext v) (PyStr query) textgen_config_low None
      = Ok (chart :: more) ->
      b64decode_open ext (raster chart) = Raise e ->
      question_flow ext cfg path query s
      = (Raise e, s,
         [StInfo ("Your Query: " ++ query)%string;
          LidaSummarize (fmt_opt path) "default" textgen_config_low;
          question_visualize_event ext v query])).
Proof.
  repeat match goal with |- _ /\ _ => split end.
  - intros v. exists (summary_step_events ext cfg v).
    split; [apply summarize_save_summary_events | apply summary_step_events_raises].
  - intros img.
    destruct (summarize_upload_step_session ext cfg img s) as (s' & t & E & _).
    exists s', t. split; [exact E|]. intros H.
    destruct (summarize_upload_step_raises ext cfg img s e H) as (calls & E' & _).
    rewrite E in E'. injection E' as -> ->. split; [reflexivity | now exists calls].
  - intros img.
    destruct (question_upload_step_session ext cfg img query s) as (s' & t & E & _).
    exists s', t. split; [exact E|]. intros H.
    destruct (question_upload_step_raises ext cfg img query s e H) as (calls & E' & _).
    rewrite E in E'. injection E' as -> ->. split; [reflexivity | now exists calls].
  - intros H. rewrite summarize_flow_run, H. reflexivity.
  - intros v H1 H2. rewrite summarize_flow_run, H1, H2. reflexivity.
  - intros v goal others H1 H2 H3.
    rewrite summarize_flow_run, H1, H2. cbn zeta. rewrite H3. reflexivity.
  - intros v goal others chart more H1 H2 H3 H4.
    rewrite summarize_flow_run, H1, H2. cbn zeta. rewrite H3, H4. reflexivity.
  - intros H. rewrite question_flow_run, H. reflexivity.
  - intros v H1 H2. rewrite question_flow_run, H1. cbn zeta. rewrite H2. reflexivity.
  - intros v chart more H1 H2 H3.
    rewrite question_flow_run, H1. cbn zeta. rewrite H2, H3. reflexivity.
Qed.

(** ** C4: where the Summarize flow displays the chart *)

(** C4 (the code at the failing input): the Drive upload raises.  The
    guarded step of the Summarize flow then shows the error and never
    displays the chart, because [st.image] comes after the upload inside
    the same [try]; when everything answers, the chart is displayed
    after the Drive request.  The Question flow, given the same failing
    uploader, has displayed the chart before the request. *)
Lemma summarize_displays_chart_after_upload :
  summarize_upload_step Mock.drive_down Mock.config Mock.image Mock.uploaded_session
  = (Ok tt, Mock.uploaded_session,
     [drive_event Mock.image;
      StError "Error saving visualization to Airtable: connection timed out"]) /\
  summarize_upload_step Mock.happy Mock.config Mock.image Mock.uploaded_session
  = (Ok tt, remember Mock.image "Summary Chart" Mock.uploaded_session,
     [drive_event Mock.image;
      StImage Mock.image;
      post_link_event Mock.happy Mock.config Mock.link;
      StSuccess saved_message]) /\
  question_flow Mock.drive_down Mock.config (Some "filename.csv") "sales by region"
                Mock.uploaded_session
  = (Ok tt, Mock.uploaded_session,
     [StInfo "Your Query: sales by region";
      LidaSummarize "filename.csv" "default" textgen_config_low;
      LidaVisualize (PyStr "S") (PyStr "sales by region") textgen_config_low None;
      StImage Mock.image;
      drive_event Mock.image;
      StError "Error saving visualization to Airtable: connection timed out"]).
Proof. repeat split; vm_compute; reflexivity. Qed.

(** ** C7: the Question screen without an uploaded CSV *)

(** C7: when the session holds no CSV path, the Question screen shows
    its title and the warning, and returns: no collaborator is called
    and the session is unchanged.  So does the whole script on such a
    session, whatever the widgets return. *)
Theorem question_needs_uploaded_csv ext cfg inp s :
  csv_file_path s = None ->
  menu_question ext cfg inp s
  = (Ok tt, s,
     [StSubheader "Query your Data to Generate Graph";
      StWarning "Please upload a CSV file first."]) /\
  existsb is_service_call
    [StSubheader "Query your Data to Generate Graph";
     StWarning "Please upload a CSV file first."] = false /\
  (forall raw,
      startup ext = Ok cfg ->
      init_session_state raw = s ->
      generated_charts s = [] ->
      menu inp = "Question based Graph" ->
      script ext inp raw
      = (Ok tt, to_raw s,
         [StSubheader "Query your Data to Generate Graph";
          StWarning "Please upload a CSV file first."])).
Proof.
  intros Hcsv.
  assert (Hq : menu_question ext cfg inp s
               = (Ok tt, s,
                  [StSubheader "Query your Data to Generate Graph";
                   StWarning "Please upload a CSV file first."])).
  { rewrite menu_question_run, Hcsv. reflexivity. }
  split; [exact Hq | split; [reflexivity|]].
  intros raw Hstart Hinit Hcharts Hmenu.
  rewrite (script_after_sidebar ext cfg inp raw []); [|exact Hstart|].
  - rewrite Hinit. unfold screen. rewrite Hmenu. cbn [String.eqb Ascii.eqb Bool.eqb].
    rewrite Hq. reflexivity.
  - rewrite Hinit. apply sidebar_no_charts, Hcharts.
Qed.

(** ** C8: credentials at the start of the script *)

Lemma startup_ok ext cfg :
  startup ext = Ok cfg ->
  getenv ext "OPENAI_API_KEY" = Some (openai_api_key cfg) /\
  BASE_ID cfg = getenv ext "AIRTABLE_BASE_ID" /\
  SUMMARIES_TABLE_NAME cfg = getenv ext "AIRTABLE_SUMMARIES_TABLE_NAME" /\
  VISUALIZATIONS_TABLE_NAME cfg = getenv ext "AIRTABLE_VISUALIZATIONS_TABLE_NAME" /\
  AIRTABLE_PAT cfg = getenv ext "AIRTABLE_PAT" /\
  forallb truthy_opt
    [BASE_ID cfg; SUMMARIES_TABLE_NAME cfg; VISUALIZATIONS_TABLE_NAME cfg; AIRTABLE_PAT cfg]
  = true /\
  exists credentials,
    from_service_account_file ext SERVICE_ACCOUNT_FILE SCOPES = Ok credentials /\
    build ext "drive" "v3" credentials = Ok (drive_service cfg).
Proof.
  unfold startup.
  destruct (getenv ext "OPENAI_API_KEY") as [key|]; [|discriminate].
  destruct (forallb truthy_opt _) eqn:Hall; cbn [negb]; [|discriminate].
  destruct (from_service_account_file ext SERVICE_ACCOUNT_FILE SCOPES) as [credentials|e];
    [|discriminate].
  destruct (build ext "drive" "v3" credentials) as [service|e] eqn:Hbuild; [|discriminate].
  intros [= <-]. cbn. repeat split; try reflexivity; try exact Hall.
  exists credentials. split; [reflexivity | exact Hbuild].
Qed.

Lemma startup_missing ext :
  credential_missing ext ->
  exists e,
    startup ext = Raise e /\
    (e = ValueError "OpenAI API key is not set." \/
     e = ValueError "Airtable credentials are not set." \/
     from_service_account_file ext SERVICE_ACCOUNT_FILE SCOPES = Raise e).
Proof.
  intros H. unfold startup.
  destruct (getenv ext "OPENAI_API_KEY") as [key|] eqn:Hkey; [|eauto].
  destruct (forallb truthy_opt _) eqn:Hall; cbn [negb]; [|eauto].
  destruct H as [H|[H|[H|[H|[H|(e & H)]]]]].
  - congruence.
  - rewrite H in Hall. discriminate Hall.
  - rewrite H in Hall. cbn in Hall. rewrite andb_false_r in Hall. discriminate Hall.
  - rewrite H in Hall. cbn in Hall. rewrite !andb_false_r in Hall. discriminate Hall.
  - rewrite H in Hall. cbn in Hall. rewrite !andb_false_r in Hall. discriminate Hall.
  - rewrite H. eauto.
Qed.

(** C8: the start of the script reads the AI key, the four Airtable
    values and the Drive service-account key file.  If one of them is
    missing the start raises — [ValueError] with a message naming the AI
    key or the Airtable credentials, or the error of the key-file loader
    — and the execution ends there: the session is untouched and nothing
    of the page or of a flow runs.  When the start succeeds, the values
    the flows use are the ones read, all present. *)
Theorem missing_credential_aborts_startup ext :
  (credential_missing ext ->
   exists e,
     startup ext = Raise e /\
     (e = ValueError "OpenAI API key is not set." \/
      e = ValueError "Airtable credentials are not set." \/
      from_service_account_file ext SERVICE_ACCOUNT_FILE SCOPES = Raise e) /\
     forall inp raw, script ext inp raw = (Raise e, raw, [])) /\
  (forall cfg,
      startup ext = Ok cfg ->
      getenv ext "OPENAI_API_KEY" = Some (openai_api_key cfg) /\
      BASE_ID cfg = getenv ext "AIRTABLE_BASE_ID" /\
      SUMMARIES_TABLE_NAME cfg = getenv ext "AIRTABLE_SUMMARIES_TABLE_NAME" /\
      VISUALIZATIONS_TABLE_NAME cfg = getenv ext "AIRTABLE_VISUALIZATIONS_TABLE_NAME" /\
      AIRTABLE_PAT cfg = getenv ext "AIRTABLE_PAT" /\
      forallb truthy_opt
        [BASE_ID cfg; SUMMARIES_TABLE_NAME cfg; VISUALIZATIONS_TABLE_NAME cfg;
         AIRTABLE_PAT cfg] = true /\
      exists credentials,
        from_service_account_file ext SERVICE_ACCOUNT_FILE SCOPES = Ok credentials /\
        build ext "drive" "v3" credentials = Ok (drive_service cfg)).
Proof.
  split.
  - intros H. destruct (startup_missing ext H) as (e & E & He).
    exists e. split; [exact E | split; [exact He|]].
    intros inp raw. unfold script. rewrite E. reflexivity.
  - apply startup_ok.
Qed.

(** ** C10: empty results of the library *)

(** C10: neither flow checks that the list it indexes is non-empty.  In
    the Summarize flow an empty list of goals makes [goals[i]] raise
    [IndexError] before the visualizer is called, and an empty list of
    charts makes [charts[0]] raise it; in the Question flow an empty
    list of charts does.  The exception is not caught: the flow ends
    with it raised, the last event being the library call, and so does
    the script. *)
Theorem empty_results_raise_index_error ext cfg inp content path query s v :
  (lida_summarize ext "filename.csv" "default" textgen_config = Ok v ->
   lida_goals ext v 2 textgen_config = Ok [] ->
   summarize_flow ext cfg content s
   = (Raise (IndexError "list index out of range"), with_csv s,
      summarize_events_to_goals ext cfg content v)) /\
  (forall goal others,
      lida_summarize ext "filename.csv" "default" textgen_config = Ok v ->
      lida_goals ext v 2 textgen_config = Ok (goal :: others) ->
      lida_visualize ext (summary_text_of ext v) goal textgen_config_low (Some "seaborn")
      = Ok [] ->
      summarize_flow ext cfg content s
      = (Raise (IndexError "list index out of range"), with_csv s,
         summarize_events_to_goals ext cfg content v
         ++ map StWrite (goal :: others)
         ++ [summarize_visualize_event ext v goal])) /\
  (lida_summarize ext (fmt_opt path) "default" textgen_config_low = Ok v ->
   lida_visualize ext (summary_text_of ext v) (PyStr query) textgen_config_low None = Ok [] ->
   question_flow ext cfg path query s
   = (Raise (IndexError "list index out of range"), s,
      [StInfo ("Your Query: " ++ query)%string;
       LidaSummarize (fmt_opt path) "default" textgen_config_low;
       question_visualize_event ext v query])) /\
  (forall raw shown e s' t,
      startup ext = Ok cfg ->
      sidebar ext (init_session_state raw) = (Ok tt, init_session_state raw, shown) ->
      menu inp = "Summarize" ->
      file_uploader inp = Some content ->
      summarize_flow ext cfg content (init_session_state raw) = (Raise e, s', t) ->
      fst (fst (script ext inp raw)) = Raise e) /\
  (forall raw shown e s' t,
      startup ext = Ok cfg ->
      sidebar ext (init_session_state raw) = (Ok tt, init_session_state raw, shown) ->
      menu inp = "Question based Graph" ->
      truthy_opt (csv_file_path (init_session_state raw)) = true ->
      button inp = true ->
      (0 <? Z.of_nat (String.length (text_area inp))) = true ->
      question_flow ext cfg (csv_file_path (init_session_state raw)) (text_area inp)
                    (init_session_state raw) = (Raise e, s', t) ->
      fst (fst (script ext inp raw)) = Raise e).
Proof.
  repeat match goal with |- _ /\ _ => split end.
  - intros H1 H2. rewrite summarize_flow_run, H1, H2. reflexivity.
  - intros goal others H1 H2 H3.
    rewrite summarize_flow_run, H1, H2. cbn zeta. rewrite H3. reflexivity.
  - intros H1 H2. rewrite question_flow_run, H1. cbn zeta. rewrite H2. reflexivity.
  - intros raw shown e s' t Hstart Hside Hmenu Hfile Hflow.
    rewrite (script_after_sidebar ext cfg inp raw shown Hstart Hside).
    unfold screen. rewrite Hmenu. cbn [String.eqb Ascii.eqb Bool.eqb].
    rewrite menu_summarize_run, Hfile, Hflow. reflexivity.
  - intros raw shown e s' t Hstart Hside Hmenu Hcsv Hbutton Hlen Hflow.
    rewrite (script_after_sidebar ext cfg inp raw shown Hstart Hside).
    unfold screen. rewrite Hmenu. cbn [String.eqb Ascii.eqb Bool.eqb].
    rewrite menu_question_run, Hcsv, Hbutton, Hlen. cbn [andb]. rewrite Hflow. reflexivity.
Qed.

(** ** Concrete runs *)

(** C1 on a 200 response and on a 201 response to the summary save. *)
Lemma save_success_is_status_200_witness :
  post_summary Mock.happy Mock.config (PyStr "S") = Mock.response 200 Mock.created /\
  save_to_airtable_summaries Mock.happy Mock.config (PyStr "S") Mock.empty_session
  = (Ok Mock.created, Mock.empty_session,
     [post_summary_event Mock.happy Mock.config (PyStr "S")]) /\
  post_summary Mock.created_201 Mock.config (PyStr "S") = Mock.response 201 Mock.created /\
  save_to_airtable_summaries Mock.created_201 Mock.config (PyStr "S") Mock.empty_session
  = (Ok Mock.created, Mock.empty_session,
     [post_summary_event Mock.created_201 Mock.config (PyStr "S");
      StError "Failed to save summary to Airtable: <repr>"]).
Proof.
  split; [reflexivity|]. split; [|split; [reflexivity|]].
  - exact (proj1 (save_success_is_status_200 Mock.happy Mock.config (PyStr "S")
                    Mock.empty_session (mkResponse 200 (Ok Mock.created))) eq_refl).
  - exact (proj1 (save_success_is_status_200 Mock.created_201 Mock.config (PyStr "S")
                    Mock.empty_session (mkResponse 201 (Ok Mock.created))) eq_refl).
Defined.

(** C2 on the first Summarize execution of a session. *)
Lemma charts_and_names_stay_aligned_witness :
  aligned Mock.empty_session /\
  exists r s' t,
    menu_summarize Mock.happy Mock.config Mock.upload_csv Mock.empty_session = (r, s', t) /\
    aligned s' /\
    (chart_records s' = chart_records Mock.empty_session \/
     exists img,
       In (StImage img) t /\
       chart_records s' = chart_records Mock.empty_session ++ [(img, "Summary Chart")]).
Proof.
  split; [reflexivity|].
  exact (proj1 (charts_and_names_stay_aligned Mock.happy Mock.config Mock.upload_csv
                  Mock.empty_session eq_refl)).
Defined.

(** C3 on a raster that does not decode, in the Summarize flow. *)
Lemma only_save_and_upload_are_guarded_witness :
  b64decode_open Mock.undecodable (raster Mock.chart) = Raise Mock.bad_padding /\
  summarize_flow Mock.undecodable Mock.config "a,b" Mock.empty_session
  = (Raise Mock.bad_padding, Mock.uploaded_session,
     summarize_events_to_goals Mock.undecodable Mock.config "a,b" (PyStr "S")
     ++ map StWrite [Mock.goal1; Mock.goal2]
     ++ [summarize_visualize_event Mock.undecodable (PyStr "S") Mock.goal1]).
Proof.
  split; [reflexivity|].
  pose proof (only_save_and_upload_are_guarded Mock.undecodable Mock.config "a,b"
                (Some "filename.csv") "sales by region" Mock.empty_session Mock.bad_padding)
    as (_ & _ & _ & _ & _ & _ & Hdecode & _).
  exact (Hdecode (PyStr "S") Mock.goal1 [Mock.goal2] Mock.chart []
                 eq_refl eq_refl eq_refl eq_refl).
Defined.

(** C5 on a Drive request that times out. *)
Lemma upload_failure_keeps_session_witness :
  upload_or_persist_raises Mock.drive_down Mock.config Mock.image Mock.timeout /\
  exists calls,
    summarize_upload_step Mock.drive_down Mock.config Mock.image Mock.uploaded_session
    = (Ok tt, Mock.uploaded_session, calls ++ [save_error Mock.timeout]) /\
    (calls = [drive_event Mock.image] \/
     exists image_url,
       calls = [drive_event Mock.image; StImage Mock.image;
                post_link_event Mock.drive_down Mock.config image_url]).
Proof.
  assert (H : upload_or_persist_raises Mock.drive_down Mock.config Mock.image Mock.timeout)
    by (left; reflexivity).
  split; [exact H|].
  exact (proj1 (upload_failure_keeps_session Mock.drive_down Mock.config Mock.image
                  "sales by region" Mock.uploaded_session Mock.timeout H)).
Defined.

(** C6 on a summary POST that times out. *)
Lemma summary_failure_does_not_block_witness :
  persist_summary_raises Mock.summary_save_down Mock.config (PyStr "S") Mock.timeout /\
  exists s' rest,
    summarize_flow Mock.summary_save_down Mock.config "a,b" Mock.empty_session
    = (Ok tt, s',
       [WriteFile "filename.csv" "a,b";
        LidaSummarize "filename.csv" "default" textgen_config;
        StWrite (PyStr "S");
        post_summary_event Mock.summary_save_down Mock.config (PyStr "S");
        StError ("Error saving summary to Airtable: " ++ str_exn Mock.timeout)%string;
        LidaGoals (PyStr "S") 2 textgen_config]
       ++ map StWrite [Mock.goal1; Mock.goal2]
       ++ [summarize_visualize_event Mock.summary_save_down (PyStr "S") Mock.goal1;
           drive_event Mock.image; StImage Mock.image]
       ++ rest).
Proof.
  assert (H : persist_summary_raises Mock.summary_save_down Mock.config (PyStr "S")
                                     Mock.timeout)
    by (left; reflexivity).
  split; [exact H|].
  exact (summary_failure_does_not_block Mock.summary_save_down Mock.config "a,b"
           Mock.empty_session (PyStr "S") Mock.timeout Mock.goal1 [Mock.goal2] Mock.chart []
           Mock.image Mock.drive_file eq_refl H eq_refl eq_refl eq_refl eq_refl).
Defined.

(** C7 on a session without a CSV, with a query typed and the button
    pressed. *)
Lemma question_needs_uploaded_csv_witness :
  csv_file_path Mock.empty_session = None /\
  menu_question Mock.happy Mock.config (Mock.ask "sales by region") Mock.empty_session
  = (Ok tt, Mock.empty_session,
     [StSubheader "Query your Data to Generate Graph";
      StWarning "Please upload a CSV file first."]) /\
  script Mock.happy (Mock.ask "sales by region") fresh_session
  = (Ok tt, to_raw Mock.empty_session,
     [StSubheader "Query your Data to Generate Graph";
      StWarning "Please upload a CSV file first."]).
Proof.
  pose proof (question_needs_uploaded_csv Mock.happy Mock.config
                (Mock.ask "sales by region") Mock.empty_session eq_refl)
    as (Hscreen & _ & Hscript).
  split; [reflexivity|]. split; [exact Hscreen|].
  exact (Hscript fresh_session eq_refl eq_refl eq_refl eq_refl).
Defined.

(** C8 on an environment without [AIRTABLE_PAT]. *)
Lemma missing_credential_aborts_startup_witness :
  credential_missing (Mock.with_env (Mock.env_without "AIRTABLE_PAT") Mock.happy) /\
  exists e,
    startup (Mock.with_env (Mock.env_without "AIRTABLE_PAT") Mock.happy) = Raise e /\
    (e = ValueError "OpenAI API key is not set." \/
     e = ValueError "Airtable credentials are not set." \/
     from_service_account_file (Mock.with_env (Mock.env_without "AIRTABLE_PAT") Mock.happy)
                               SERVICE_ACCOUNT_FILE SCOPES = Raise e) /\
    forall inp raw,
      script (Mock.with_env (Mock.env_without "AIRTABLE_PAT") Mock.happy) inp raw
      = (Raise e, raw, []).
Proof.
  assert (H : credential_missing (Mock.with_env (Mock.env_without "AIRTABLE_PAT") Mock.happy))
    by (right; right; right; right; left; reflexivity).
  split; [exact H|].
  exact (proj1 (missing_credential_aborts_startup
                  (Mock.with_env (Mock.env_without "AIRTABLE_PAT") Mock.happy)) H).
Defined.

(** C9 on a 500 response carrying a JSON error object. *)
Lemma failed_save_is_reported_as_saved_witness :
  is_2xx 500 = false /\
  truthy Mock.error_body = true /\
  summarize_upload_step Mock.link_save_500 Mock.config Mock.image Mock.uploaded_session
  = (Ok tt, remember Mock.image "Summary Chart" Mock.uploaded_session,
     [drive_event Mock.image; StImage Mock.image;
      post_link_event Mock.link_save_500 Mock.config Mock.link;
      failed_link Mock.link_save_500 Mock.error_body; StSuccess saved_message]).
Proof.
  split; [reflexivity|]. split; [reflexivity|].
  exact (proj1 (proj2 (failed_save_is_reported_as_saved Mock.link_save_500 Mock.config
                         Mock.image "sales by region" Mock.uploaded_session Mock.drive_file
                         (mkResponse 500 (Ok Mock.error_body)) Mock.error_body
                         eq_refl eq_refl eq_refl eq_refl eq_refl))).
Defined.

(** C10 on a goal generator that returns no goal. *)
Lemma empty_results_raise_index_error_witness :
  lida_goals Mock.no_goals (PyStr "S") 2 textgen_config = Ok [] /\
  summarize_flow Mock.no_goals Mock.config "a,b" Mock.empty_session
  = (Raise (IndexError "list index out of range"), Mock.uploaded_session,
     summarize_events_to_goals Mock.no_goals Mock.config "a,b" (PyStr "S")) /\
  fst (fst (script Mock.no_goals Mock.upload_csv fresh_session))
  = Raise (IndexError "list index out of range").
Proof.
  pose proof (empty_results_raise_index_error Mock.no_goals Mock.config Mock.upload_csv
                "a,b" (Some "filename.csv") "sales by region" Mock.empty_session (PyStr "S"))
    as (Hgoals & _ & _ & Hscript & _).
  split; [reflexivity|]. split; [exact (Hgoals eq_refl eq_refl)|].
  exact (Hscript fresh_session [] _ _ _ eq_refl eq_refl eq_refl eq_refl
                 (Hgoals eq_refl eq_refl)).
Defined.

(** * Further properties of the script *)

(** ** The sidebar (lines 142-162) *)

Lemma sidebar_unfold ext s :
  sidebar ext s =
  match generated_charts s with
  | [] => (Ok tt, s, [])
  | _ :: _ =>
      match for_each (combine (chart_names s) (generated_charts s)) (sidebar_item ext) s with
      | (r, s', t) => (r, s', SidebarSubheader "Generated Graphs" :: t)
      end
  end.
Proof.
  unfold sidebar.
  unfold bind at 1. unfold get_session.
  destruct (generated_charts s) as [|c cs]; [reflexivity|]. cbn [when].
  unfold bind at 1. unfold emit at 1.
  match goal with
  | |- context [for_each ?items ?body s] => change body with (sidebar_item ext)
  end.
  destruct (for_each (combine (chart_names s) (c :: cs)) (sidebar_item ext) s) as [[r s'] t].
  reflexivity.
Qed.

Lemma sidebar_item_ok ext enc name img s :
  image_save_b64 ext img temp_file_path = Ok (enc img) ->
  sidebar_item ext (name, img) s = (Ok tt, s, [thumbnail enc (name, img)]).
Proof.
  intros H. unfold sidebar_item, bind, lift, emit, thumbnail. rewrite H. reflexivity.
Qed.

Lemma sidebar_item_raise ext name img e s :
  image_save_b64 ext img temp_file_path = Raise e ->
  sidebar_item ext (name, img) s = (Raise e, s, []).
Proof.
  intros H. unfold sidebar_item, bind, lift. rewrite H. reflexivity.
Qed.

Lemma for_each_sidebar_ok ext enc items s :
  (forall name img, In (name, img) items ->
                    image_save_b64 ext img temp_file_path = Ok (enc img)) ->
  for_each items (sidebar_item ext) s = (Ok tt, s, map (thumbnail enc) items).
Proof.
  induction items as [|[name img] rest IH]; intros H; cbn [for_each map].
  - reflexivity.
  - rewrite (bind_ok _ _ _ _ _ _ (sidebar_item_ok ext enc name img s (H name img (or_introl eq_refl)))).
    rewrite (IH (fun n i Hin => H n i (or_intror Hin))). reflexivity.
Qed.

Lemma for_each_sidebar_stops ext enc before name img after e s :
  (forall n i, In (n, i) before -> image_save_b64 ext i temp_file_path = Ok (enc i)) ->
  image_save_b64 ext img temp_file_path = Raise e ->
  for_each (before ++ (name, img) :: after) (sidebar_item ext) s
  = (Raise e, s, map (thumbnail enc) before).
Proof.
  induction before as [|[n i] rest IH]; intros H He; cbn [for_each map app].
  - rewrite (bind_raise _ _ _ _ _ _ (sidebar_item_raise ext name img e s He)). reflexivity.
  - rewrite (bind_ok _ _ _ _ _ _ (sidebar_item_ok ext enc n i s (H n i (or_introl eq_refl)))).
    rewrite (IH (fun n' i' Hin => H n' i' (or_intror Hin)) He). reflexivity.
Qed.

Lemma combine_app_same_length {A B} (l1 l2 : list A) (m1 m2 : list B) :
  length l1 = length m1 ->
  combine (l1 ++ l2) (m1 ++ m2) = combine l1 m1 ++ combine l2 m2.
Proof.
  revert m1. induction l1 as [|a l1 IH]; intros [|b m1] H; cbn in *; try discriminate.
  - reflexivity.
  - f_equal. apply IH. lia.
Qed.

(** X1: when the PNG of every stored chart can be written and read
    back, the sidebar returns normally and leaves the session alone; it
    shows nothing for a session without charts, and otherwise the
    heading followed by one thumbnail per (label, chart) pair, in the
    order of the lists; with aligned lists that is one per chart. *)
Theorem sidebar_shows_one_thumbnail_per_chart ext enc s :
  (forall img, In img (generated_charts s) ->
               image_save_b64 ext img temp_file_path = Ok (enc img)) ->
  sidebar ext s
  = (Ok tt, s,
     match generated_charts s with
     | [] => []
     | _ :: _ =>
         SidebarSubheader "Generated Graphs"
         :: map (thumbnail enc) (combine (chart_names s) (generated_charts s))
     end) /\
  (aligned s ->
   length (map (thumbnail enc) (combine (chart_names s) (generated_charts s)))
   = length (generated_charts s)).
Proof.
  intros H. split.
  - rewrite sidebar_unfold. destruct (generated_charts s) as [|c cs] eqn:E; [reflexivity|].
    rewrite (for_each_sidebar_ok ext enc); [reflexivity|].
    intros name img Hin. apply H. exact (in_combine_r _ _ _ _ Hin).
  - unfold aligned. intros Ha. rewrite length_map, length_combine. lia.
Qed.

(** X2: when the PNG of a stored chart cannot be written, the sidebar
    raises that error after the thumbnails of the charts before it, and
    the page stops there: the screen chosen in the menu does not run, no
    service is called and the session is unchanged; the script ends with
    that error. *)
Theorem unwritable_thumbnail_aborts_page
    ext cfg inp enc s names1 name names2 charts1 img charts2 e :
  chart_names s = names1 ++ name :: names2 ->
  generated_charts s = charts1 ++ img :: charts2 ->
  length names1 = length charts1 ->
  (forall i, In i charts1 -> image_save_b64 ext i temp_file_path = Ok (enc i)) ->
  image_save_b64 ext img temp_file_path = Raise e ->
  page ext cfg inp s
  = (Raise e, s,
     SidebarSubheader "Generated Graphs" :: map (thumbnail enc) (combine names1 charts1)) /\
  (forall raw,
      startup ext = Ok cfg ->
      init_session_state raw = s ->
      script ext inp raw
      = (Raise e, to_raw s,
         SidebarSubheader "Generated Graphs"
         :: map (thumbnail enc) (combine names1 charts1))).
Proof.
  intros Hn Hc Hlen Hok He.
  assert (Hside : sidebar ext s
                  = (Raise e, s,
                     SidebarSubheader "Generated Graphs"
                     :: map (thumbnail enc) (combine names1 charts1))).
  { rewrite sidebar_unfold, Hn, Hc.
    destruct (charts1 ++ img :: charts2) as [|c cs] eqn:E.
    { destruct charts1; discriminate E. }
    rewrite <- E. rewrite (combine_app_same_length _ _ _ _ Hlen). cbn [combine].
    rewrite (for_each_sidebar_stops ext enc _ name img _ e s
               (fun n i Hin => Hok i (in_combine_r _ _ _ _ Hin)) He).
    reflexivity. }
  assert (Hpage : page ext cfg inp s
                  = (Raise e, s,
                     SidebarSubheader "Generated Graphs"
                     :: map (thumbnail enc) (combine names1 charts1))).
  { unfold page. rewrite (bind_raise _ _ _ _ _ _ Hside). reflexivity. }
  split; [exact Hpage|].
  intros raw Hstart Hinit. unfold script. rewrite Hstart, Hinit, Hpage. reflexivity.
Qed.

Lemma for_each_sidebar_events ext items s :
  exists r t,
    for_each items (sidebar_item ext) s = (r, s, t) /\
    forallb is_sidebar_event t = true.
Proof.
  induction items as [|[name img] rest IH]; cbn [for_each].
  - exists (Ok tt), []. split; reflexivity.
  - destruct (image_save_b64 ext img temp_file_path) as [b64|e] eqn:E.
    + rewrite (bind_ok _ _ _ _ _ _ (sidebar_item_ok ext (fun _ => b64) name img s E)).
      destruct IH as (r & t & -> & Ht). exists r, (thumbnail (fun _ => b64) (name, img) :: t).
      split; [reflexivity|]. cbn. exact Ht.
    + rewrite (bind_raise _ _ _ _ _ _ (sidebar_item_raise ext name img e s E)).
      exists (Raise e), []. split; reflexivity.
Qed.

(** X3: whatever happens while the thumbnails are written, the sidebar
    leaves the session as it found it and produces sidebar output only:
    it calls no service and shows nothing on the main page. *)
Theorem sidebar_only_draws ext s :
  exists r t,
    sidebar ext s = (r, s, t) /\
    forallb is_sidebar_event t = true /\
    existsb is_service_call t = false.
Proof.
  assert (Hno : forall t, forallb is_sidebar_event t = true ->
                          existsb is_service_call t = false).
  { induction t as [|ev t IH]; cbn; [reflexivity|].
    intros H. apply andb_prop in H as [Hev Ht]. rewrite (IH Ht).
    destruct ev; try discriminate Hev; reflexivity. }
  rewrite sidebar_unfold. destruct (generated_charts s) as [|c cs].
  - exists (Ok tt), []. repeat split.
  - destruct (for_each_sidebar_events ext (combine (chart_names s) (c :: cs)) s)
      as (r & t & -> & Ht).
    exists r, (SidebarSubheader "Generated Graphs" :: t).
    split; [reflexivity|]. split; [exact Ht|]. apply Hno. exact Ht.
Qed.

(** ** Screens that have nothing to do (lines 168, 220-223) *)

Lemma length_pos_nonempty (text : string) :
  (0 <? Z.of_nat (String.length text)) = negb (text =? "")%string.
Proof. destruct text; reflexivity. Qed.

(** X4: the Summarize screen without an uploaded file shows its two
    titles and stops; the Question screen with a stored CSV shows its
    title and stops as long as the button is not pressed or the query is
    empty.  In both cases no service is called and the session is
    unchanged. *)
Theorem idle_screens_call_nothing ext cfg inp s :
  (file_uploader inp = None ->
   menu_summarize ext cfg inp s
   = (Ok tt, s,
      [StHeader "📊 INFERA ONE 📊"; StSubheader "Summarization of your Data"])) /\
  (truthy_opt (csv_file_path s) = true ->
   button inp = false \/ text_area inp = "" ->
   menu_question ext cfg inp s
   = (Ok tt, s, [StSubheader "Query your Data to Generate Graph"])).
Proof.
  split.
  - intros H. rewrite menu_summarize_run, H. reflexivity.
  - intros Hcsv Hidle. rewrite menu_question_run, Hcsv.
    destruct Hidle as [-> | ->]; [reflexivity|].
    rewrite andb_false_r. reflexivity.
Qed.

(** ** From the Summarize screen to the Question screen *)

Lemma summarize_flow_records_path ext cfg content s :
  exists r s' rest,
    summarize_flow ext cfg content s
    = (r, s',
       WriteFile "filename.csv" content
       :: LidaSummarize "filename.csv" "default" textgen_config :: rest) /\
    csv_file_path s' = Some "filename.csv".
Proof.
  destruct (summarize_flow_session ext cfg content s) as (r & s' & t & E & Hs).
  assert (Hcsv : csv_file_path s' = Some "filename.csv").
  { destruct Hs as [->|(img & -> & _)]; reflexivity. }
  exists r, s'. rewrite E. revert E. rewrite summarize_flow_run.
  unfold summarize_events_to_goals.
  destruct (lida_summarize ext "filename.csv" "default" textgen_config) as [v|e].
  2:{ intros [= <- <- <-]. eexists. split; [reflexivity | exact Hcsv]. }
  destruct (lida_goals ext v 2 textgen_config) as [[|goal others]|e].
  1,3: intros [= <- <- <-]; eexists; split; [reflexivity | exact Hcsv].
  cbn zeta.
  destruct (lida_visualize ext (summary_text_of ext v) goal textgen_config_low (Some "seaborn"))
    as [[|chart more]|e].
  1,3: intros [= <- <- <-]; eexists; split; [reflexivity | exact Hcsv].
  destruct (b64decode_open ext (raster chart)) as [img|e].
  2:{ intros [= <- <- <-]. eexists. split; [reflexivity | exact Hcsv]. }
  destruct (summarize_upload_step ext cfg img (with_csv s)) as [[r0 s0] t0].
  intros [= <- <- <-]. eexists. split; [reflexivity | exact Hcsv].
Qed.

Lemma question_flow_starts_with_summarizer ext cfg path query s :
  exists r s' rest,
    question_flow ext cfg path query s
    = (r, s',
       StInfo ("Your Query: " ++ query)%string
       :: LidaSummarize (fmt_opt path) "default" textgen_config_low :: rest).
Proof.
  rewrite question_flow_run.
  destruct (lida_summarize ext (fmt_opt path) "default" textgen_config_low) as [v|e];
    [|solve [do 3 eexists; reflexivity]].
  cbn zeta.
  destruct (lida_visualize ext (summary_text_of ext v) (PyStr query) textgen_config_low None)
    as [[|chart more]|e]; [solve [do 3 eexists; reflexivity]| |solve [do 3 eexists; reflexivity]].
  destruct (b64decode_open ext (raster chart)) as [img|e]; [|solve [do 3 eexists; reflexivity]].
  destruct (question_upload_step ext cfg img query s) as [[r s'] t]. do 3 eexists. reflexivity.
Qed.

(** X5: once a file is uploaded on the Summarize screen, the file is
    written to "filename.csv" and that path is recorded in the session
    before the summarizer is called, so it stays recorded however the
    rest of the flow ends.  A later Question execution on that session,
    with the button pressed and a non-empty query, therefore does not
    warn: it shows the query and calls the summarizer again on
    "filename.csv", with the low-temperature settings. *)
Theorem uploaded_file_unlocks_question_screen ext cfg inp content s :
  file_uploader inp = Some content ->
  exists r s' rest,
    menu_summarize ext cfg inp s
    = (r, s',
       StHeader "📊 INFERA ONE 📊"
       :: StSubheader "Summarization of your Data"
       :: WriteFile "filename.csv" content
       :: LidaSummarize "filename.csv" "default" textgen_config :: rest) /\
    csv_file_path s' = Some "filename.csv" /\
    forall ext' cfg' inp',
      button inp' = true ->
      text_area inp' <> "" ->
      exists r2 s2 rest2,
        menu_question ext' cfg' inp' s'
        = (r2, s2,
           StSubheader "Query your Data to Generate Graph"
           :: StInfo ("Your Query: " ++ text_area inp')%string
           :: LidaSummarize "filename.csv" "default" textgen_config_low :: rest2).
Proof.
  intros Hfile.
  destruct (summarize_flow_records_path ext cfg content s) as (r & s' & rest & E & Hcsv).
  exists r, s', rest. split; [|split; [exact Hcsv|]].
  - rewrite menu_summarize_run, Hfile, E. reflexivity.
  - intros ext' cfg' inp' Hbutton Htext.
    rewrite menu_question_run, Hcsv. cbn [truthy_opt String.eqb negb].
    rewrite Hbutton, length_pos_nonempty.
    destruct (String.eqb_spec (text_area inp') "") as [Heq|_]; [contradiction|].
    cbn [negb andb].
    destruct (question_flow_starts_with_summarizer ext' cfg' (Some "filename.csv")
                (text_area inp') s') as (r2 & s2 & rest2 & E2).
    rewrite E2. cbn [fmt_opt]. eauto.
Qed.

(** ** The flows when every collaborator answers *)

Lemma summarize_upload_step_saved ext cfg img s file response body :
  drive_create ext img = Ok file ->
  post_link ext cfg (dict_get file "webViewLink") = Ok response ->
  status_code response = 200 ->
  json response = Ok body ->
  truthy body = true ->
  summarize_upload_step ext cfg img s
  = (Ok tt, remember img "Summary Chart" s,
     [drive_event img; StImage img;
      post_link_event ext cfg (dict_get file "webViewLink");
      StSuccess saved_message]).
Proof.
  intros Hdrive Hpost Hcode Hjson Htruthy.
  rewrite summarize_upload_step_run, Hdrive. cbn zeta.
  rewrite Hpost, Hjson, Hcode, Htruthy. reflexivity.
Qed.

Lemma summarize_flow_saved
    ext cfg content s v goal others chart more img file response body :
  lida_summarize ext "filename.csv" "default" textgen_config = Ok v ->
  lida_goals ext v 2 textgen_config = Ok (goal :: others) ->
  lida_visualize ext (summary_text_of ext v) goal textgen_config_low (Some "seaborn")
  = Ok (chart :: more) ->
  b64decode_open ext (raster chart) = Ok img ->
  drive_create ext img = Ok file ->
  post_link ext cfg (dict_get file "webViewLink") = Ok response ->
  status_code response = 200 ->
  json response = Ok body ->
  truthy body = true ->
  summarize_flow ext cfg content s
  = (Ok tt, remember img "Summary Chart" (with_csv s),
     (summarize_events_to_goals ext cfg content v
      ++ map StWrite (goal :: others)
      ++ [summarize_visualize_event ext v goal])
     ++ [drive_event img; StImage img;
         post_link_event ext cfg (dict_get file "webViewLink");
         StSuccess saved_message]).
Proof.
  intros Hsum Hgoals Hvis Hdec Hdrive Hpost Hcode Hjson Htruthy.
  rewrite summarize_flow_run, Hsum, Hgoals. cbn zeta. rewrite Hvis, Hdec.
  rewrite (summarize_upload_step_saved _ _ _ _ _ _ _ Hdrive Hpost Hcode Hjson Htruthy).
  reflexivity.
Qed.

(** X6: in the Summarize flow, when the summarizer, the goal generator,
    the visualizer, the decoder and Drive answer and the link save comes
    back 200 with a truthy body, the flow returns normally.  It shows
    the summary and every goal, asks the visualizer for the first goal
    only (with "seaborn" and the low-temperature settings), decodes the
    first chart only, makes one Drive request, posts exactly the link
    Drive returned, and appends the decoded image with the label
    "Summary Chart" to the session, which also holds the CSV path. *)
Theorem summarize_flow_when_all_answer
    ext cfg content s v goal others chart more img file response body :
  lida_summarize ext "filename.csv" "default" textgen_config = Ok v ->
  lida_goals ext v 2 textgen_config = Ok (goal :: others) ->
  lida_visualize ext (summary_text_of ext v) goal textgen_config_low (Some "seaborn")
  = Ok (chart :: more) ->
  b64decode_open ext (raster chart) = Ok img ->
  drive_create ext img = Ok file ->
  post_link ext cfg (dict_get file "webViewLink") = Ok response ->
  status_code response = 200 ->
  json response = Ok body ->
  truthy body = true ->
  summarize_flow ext cfg content s
  = (Ok tt,
     mkSession (Some "filename.csv") (summary s)
               (generated_charts s ++ [img]) (chart_names s ++ ["Summary Chart"]),
     [WriteFile "filename.csv" content;
      LidaSummarize "filename.csv" "default" textgen_config;
      StWrite v]
     ++ summary_step_events ext cfg v
     ++ [LidaGoals v 2 textgen_config]
     ++ map StWrite (goal :: others)
     ++ [LidaVisualize (summary_text_of ext v) goal textgen_config_low (Some "seaborn");
         DriveFilesCreate file_metadata img "id, webViewLink";
         StImage img;
         post_link_event ext cfg (dict_get file "webViewLink");
         StSuccess "Visualization saved to Airtable successfully!"]).
Proof.
  intros Hsum Hgoals Hvis Hdec Hdrive Hpost Hcode Hjson Htruthy.
  rewrite (summarize_flow_saved _ _ _ _ _ _ _ _ _ _ _ _ _
             Hsum Hgoals Hvis Hdec Hdrive Hpost Hcode Hjson Htruthy).
  unfold summarize_events_to_goals, summarize_visualize_event, remember, with_csv.
  cbn [csv_file_path summary generated_charts chart_names].
  rewrite <- !app_assoc. reflexivity.
Qed.

(** X7: in the Question flow, when the summarizer, the visualizer, the
    decoder and Drive answer and the link save comes back 200 with a
    truthy body, the flow returns normally.  It summarizes the stored
    file again, gives the query itself to the visualizer as the goal
    (no charting library named), displays the first chart before the
    Drive request, posts the link Drive returned, and appends the image
    labelled with the query; the CSV path is untouched. *)
Theorem question_flow_when_all_answer
    ext cfg path query s v chart more img file response body :
  lida_summarize ext (fmt_opt path) "default" textgen_config_low = Ok v ->
  lida_visualize ext (summary_text_of ext v) (PyStr query) textgen_config_low None
  = Ok (chart :: more) ->
  b64decode_open ext (raster chart) = Ok img ->
  drive_create ext img = Ok file ->
  post_link ext cfg (dict_get file "webViewLink") = Ok response ->
  status_code response = 200 ->
  json response = Ok body ->
  truthy body = true ->
  question_flow ext cfg path query s
  = (Ok tt,
     mkSession (csv_file_path s) (summary s)
               (generated_charts s ++ [img]) (chart_names s ++ [query]),
     [StInfo ("Your Query: " ++ query)%string;
      LidaSummarize (fmt_opt path) "default" textgen_config_low;
      LidaVisualize (summary_text_of ext v) (PyStr query) textgen_config_low None;
      StImage img;
      DriveFilesCreate file_metadata img "id, webViewLink";
      post_link_event ext cfg (dict_get file "webViewLink");
      StSuccess "Visualization saved to Airtable successfully!"]).
Proof.
  intros Hsum Hvis Hdec Hdrive Hpost Hcode Hjson Htruthy.
  rewrite question_flow_run, Hsum. cbn zeta. rewrite Hvis, Hdec.
  rewrite question_upload_step_run, Hdrive. cbn zeta.
  rewrite Hpost, Hjson, Hcode, Htruthy. reflexivity.
Qed.

(** ** Edge answers of Drive and Airtable *)

Lemma dict_get_missing (d : list (string * PyVal)) key :
  (forall v, ~ In (key, v) d) -> dict_get d key = PyNone.
Proof.
  induction d as [|[k v] rest IH]; intros H; cbn [dict_get].
  - reflexivity.
  - destruct (String.eqb_spec k key) as [->|_].
    + exfalso. apply (H v). left. reflexivity.
    + apply IH. intros v' Hin. apply (H v'). right. exact Hin.
Qed.

(** X8: when the file Drive returns has no [webViewLink] entry,
    [upload_image_to_drive] does not fail: it returns [None], the save
    function turns it into text with [str], and both guarded steps go on
    to post that text as the "Image Link" — the record sent to Airtable
    holds the text of [None], not a link. *)
Theorem missing_link_is_posted_as_text ext cfg img query s file :
  drive_create ext img = Ok file ->
  (forall v, ~ In ("webViewLink", v) file) ->
  upload_image_to_drive ext img s = (Ok PyNone, s, [drive_event img]) /\
  (exists r rest,
      summarize_upload_step ext cfg img s
      = (Ok tt, r,
         drive_event img
         :: StImage img
         :: RequestsPost (airtable_url cfg (VISUALIZATIONS_TABLE_NAME cfg))
                         (airtable_headers cfg)
                         (PyDict [("fields", PyDict [("Image Link", PyStr (repr ext PyNone))])])
         :: rest)) /\
  (exists r rest,
      question_upload_step ext cfg img query s
      = (Ok tt, r,
         drive_event img
         :: RequestsPost (airtable_url cfg (VISUALIZATIONS_TABLE_NAME cfg))
                         (airtable_headers cfg)
                         (PyDict [("fields", PyDict [("Image Link", PyStr (repr ext PyNone))])])
         :: rest)).
Proof.
  intros Hdrive Hmissing.
  pose proof (dict_get_missing file "webViewLink" Hmissing) as Hnone.
  split; [|split].
  - rewrite upload_image_to_drive_run, Hdrive, Hnone. reflexivity.
  - rewrite summarize_upload_step_run, Hdrive. cbn zeta. rewrite Hnone.
    destruct (post_link ext cfg PyNone) as [response|e]; [|do 2 eexists; reflexivity].
    destruct (json response) as [body|e]; [|do 2 eexists; reflexivity].
    do 2 eexists. reflexivity.
  - rewrite question_upload_step_run, Hdrive. cbn zeta. rewrite Hnone.
    destruct (post_link ext cfg PyNone) as [response|e]; [|do 2 eexists; reflexivity].
    destruct (json response) as [body|e]; [|do 2 eexists; reflexivity].
    do 2 eexists. reflexivity.
Qed.

(** X9: a save that Airtable accepts with status 200 but answers with a
    falsy body (an empty object, [null], an empty list) is not treated
    as saved: after the request the guarded step shows neither the
    success message nor an error, and the chart is not appended to the
    session; the summary step likewise shows nothing after its
    request. *)
Theorem accepted_save_with_falsy_body_is_silent
    ext cfg v img query s file response body :
  status_code response = 200 ->
  json response = Ok body ->
  truthy body = false ->
  (post_summary ext cfg v = Ok response ->
   summarize_save_summary ext cfg v s = (Ok tt, s, [post_summary_event ext cfg v])) /\
  (drive_create ext img = Ok file ->
   post_link ext cfg (dict_get file "webViewLink") = Ok response ->
   summarize_upload_step ext cfg img s
   = (Ok tt, s,
      [drive_event img; StImage img;
       post_link_event ext cfg (dict_get file "webViewLink")]) /\
   question_upload_step ext cfg img query s
   = (Ok tt, s,
      [drive_event img; post_link_event ext cfg (dict_get file "webViewLink")])).
Proof.
  intros Hcode Hjson Hfalsy. split.
  - intros Hpost. rewrite summarize_save_summary_run, Hpost, Hjson, Hcode, Hfalsy.
    reflexivity.
  - intros Hdrive Hpost. split.
    + rewrite summarize_upload_step_run, Hdrive. cbn zeta.
      rewrite Hpost, Hjson, Hcode, Hfalsy. reflexivity.
    + rewrite question_upload_step_run, Hdrive. cbn zeta.
      rewrite Hpost, Hjson, Hcode, Hfalsy. reflexivity.
Qed.

(** X10: when the summary save comes back with a status other than 200
    and a JSON body, the Summarize flow shows the failure with that
    body, then — if the body is truthy — also the message that the
    summary was saved, and goes on to request the goals: a rejected
    summary does not stop the flow. *)
Theorem rejected_summary_save_does_not_stop_flow ext cfg content s v response body :
  lida_summarize ext "filename.csv" "default" textgen_config = Ok v ->
  post_summary ext cfg v = Ok response ->
  status_code response <> 200 ->
  json response = Ok body ->
  summarize_save_summary ext cfg v s
  = (Ok tt, s,
     [post_summary_event ext cfg v;
      StError ("Failed to save summary to Airtable: " ++ py_str ext body)%string]
     ++ (if truthy body then [StSuccess "Summary saved to Airtable successfully!"] else [])) /\
  exists r s' rest,
    summarize_flow ext cfg content s
    = (r, s',
       [WriteFile "filename.csv" content;
        LidaSummarize "filename.csv" "default" textgen_config;
        StWrite v;
        post_summary_event ext cfg v;
        StError ("Failed to save summary to Airtable: " ++ py_str ext body)%string]
       ++ (if truthy body then [StSuccess "Summary saved to Airtable successfully!"] else [])
       ++ LidaGoals v 2 textgen_config :: rest).
Proof.
  intros Hsum Hpost Hcode Hjson.
  apply Z.eqb_neq in Hcode.
  assert (Hevents : summary_step_events ext cfg v
                    = [post_summary_event ext cfg v;
                       StError ("Failed to save summary to Airtable: "
                                ++ py_str ext body)%string]
                      ++ (if truthy body
                          then [StSuccess "Summary saved to Airtable successfully!"]
                          else [])).
  { unfold summary_step_events. rewrite Hpost, Hjson, Hcode. reflexivity. }
  split.
  - rewrite summarize_save_summary_events, Hevents. reflexivity.
  - rewrite summarize_flow_run, Hsum. unfold summarize_events_to_goals. rewrite Hevents.
    destruct (lida_goals ext v 2 textgen_config) as [[|goal others]|e].
    + do 3 eexists. cbn [app]. rewrite <- ?app_assoc. cbn [app]. reflexivity.
    + cbn zeta.
      destruct (lida_visualize ext (summary_text_of ext v) goal textgen_config_low
                               (Some "seaborn")) as [[|chart more]|e].
      * do 3 eexists. cbn [app]. rewrite <- ?app_assoc. cbn [app]. reflexivity.
      * destruct (b64decode_open ext (raster chart)) as [img|e].
        -- destruct (summarize_upload_step ext cfg img (with_csv s)) as [[r s'] t].
           do 3 eexists. cbn [app]. rewrite <- ?app_assoc. cbn [app]. reflexivity.
        -- do 3 eexists. cbn [app]. rewrite <- ?app_assoc. cbn [app]. reflexivity.
      * do 3 eexists. cbn [app]. rewrite <- ?app_assoc. cbn [app]. reflexivity.
    + do 3 eexists. cbn [app]. rewrite <- ?app_assoc. cbn [app]. reflexivity.
Qed.

(** ** What a whole session keeps (lines 126-137, 169, 213-214, 254-255) *)

Lemma grows_from_refl s : grows_from s s 0.
Proof.
  split; [reflexivity|]. split; [left; reflexivity|].
  exists [], []. rewrite !app_nil_r. repeat split.
Qed.

Lemma grows_from_with_csv s : grows_from s (with_csv s) 0.
Proof.
  split; [reflexivity|]. split; [right; reflexivity|].
  exists [], []. cbn. rewrite !app_nil_r. repeat split.
Qed.

Lemma grows_from_remember img name s0 s n :
  grows_from s0 s n -> grows_from s0 (remember img name s) (S n).
Proof.
  intros (Hsum & Hcsv & imgs & names & Hc & Hn & Hli & Hln).
  split; [exact Hsum|]. split; [exact Hcsv|].
  exists (imgs ++ [img]), (names ++ [name]). cbn.
  rewrite Hc, Hn, <- !app_assoc, !length_app, Hli, Hln. cbn.
  repeat split; lia.
Qed.

Lemma grows_from_trans s0 s1 s2 n m :
  grows_from s0 s1 n -> grows_from s1 s2 m -> grows_from s0 s2 (n + m).
Proof.
  intros (Hsum1 & Hcsv1 & i1 & n1 & Hc1 & Hn1 & Hli1 & Hln1)
         (Hsum2 & Hcsv2 & i2 & n2 & Hc2 & Hn2 & Hli2 & Hln2).
  split; [congruence|]. split.
  - destruct Hcsv2 as [->| ->]; [exact Hcsv1 | right; reflexivity].
  - exists (i1 ++ i2), (n1 ++ n2).
    rewrite Hc2, Hc1, Hn2, Hn1, <- !app_assoc, !length_app. repeat split; lia.
Qed.

Lemma page_grows ext cfg inp s :
  exists r s' t n,
    page ext cfg inp s = (r, s', t) /\ grows_from s s' n /\ (n <= 1)%nat.
Proof.
  unfold page. destruct (keeps_sidebar ext s) as (r0 & t0 & E0).
  destruct r0 as [[]|e].
  2:{ rewrite (bind_raise _ _ _ _ _ _ E0). exists (Raise e), s, t0, 0%nat.
      split; [reflexivity|]. split; [apply grows_from_refl | lia]. }
  rewrite (bind_ok _ _ _ _ _ _ E0). unfold screen.
  destruct (menu inp =? "Summarize")%string.
  - destruct (menu_summarize_session ext cfg inp s) as (r & s' & t & E & Hs).
    rewrite E. destruct Hs as [->|[->|(img & -> & _)]].
    + exists r, s, (t0 ++ t), 0%nat. split; [reflexivity|].
      split; [apply grows_from_refl | lia].
    + exists r, (with_csv s), (t0 ++ t), 0%nat. split; [reflexivity|].
      split; [apply grows_from_with_csv | lia].
    + exists r, (remember img "Summary Chart" (with_csv s)), (t0 ++ t), 1%nat.
      split; [reflexivity|].
      split; [apply grows_from_remember, grows_from_with_csv | lia].
  - destruct (menu inp =? "Question based Graph")%string.
    + destruct (menu_question_session ext cfg inp s) as (r & s' & t & E & Hs).
      rewrite E. destruct Hs as [->|(img & -> & _)].
      * exists r, s, (t0 ++ t), 0%nat. split; [reflexivity|].
        split; [apply grows_from_refl | lia].
      * exists r, (remember img (text_area inp) s), (t0 ++ t), 1%nat.
        split; [reflexivity|].
        split; [apply grows_from_remember, grows_from_refl | lia].
    + exists (Ok tt), s, (t0 ++ []), 0%nat. split; [reflexivity|].
      split; [apply grows_from_refl | lia].
Qed.

Lemma script_grows ext inp raw :
  exists r raw' t n,
    script ext inp raw = (r, raw', t) /\
    grows_from (init_session_state raw) (init_session_state raw') n /\ (n <= 1)%nat.
Proof.
  unfold script. destruct (startup ext) as [cfg|e].
  - destruct (page_grows ext cfg inp (init_session_state raw))
      as (r & s' & t & n & E & Hg & Hn).
    rewrite E. exists r, (to_raw s'), t, n. rewrite init_to_raw. auto.
  - exists (Raise e), raw, [], 0%nat. split; [reflexivity|].
    split; [apply grows_from_refl | lia].
Qed.

(** X11: over any sequence of executions of the script in one session,
    whatever the collaborators answer and whatever fails, nothing held
    by the session is lost: the charts and labels present at some point
    stay at the front of the two lists in the same order, at most one
    chart with its label is added per execution, the [summary] entry is
    never written, and the CSV path only ever changes to
    "filename.csv". *)
Theorem session_never_loses_charts runs :
  forall raw,
  exists n,
    grows_from (init_session_state raw)
               (init_session_state (run_session runs raw)) n /\
    (n <= length runs)%nat.
Proof.
  induction runs as [|[ext inp] rest IH]; intros raw; cbn [run_session length].
  - exists 0%nat. split; [apply grows_from_refl | lia].
  - destruct (script_grows ext inp raw) as (r & raw' & t & n & E & Hg & Hn).
    rewrite E. destruct (IH raw') as (m & Hm & Hle).
    exists (n + m)%nat. split; [exact (grows_from_trans _ _ _ _ _ Hg Hm) | lia].
Qed.

(** ** The start of the script, exactly (lines 18-37) *)


(** ** No call is repeated *)

Lemma count_app p t1 t2 : count p (t1 ++ t2) = (count p t1 + count p t2)%nat.
Proof. unfold count. rewrite filter_app, length_app. reflexivity. Qed.

Lemma count_cons p ev t : count p (ev :: t) = ((if p ev then 1 else 0) + count p t)%nat.
Proof. unfold count. cbn [filter]. destruct (p ev); reflexivity. Qed.

Lemma count_nil p : count p [] = 0%nat.
Proof. reflexivity. Qed.

Lemma count_st_write p vs :
  (forall v, p (StWrite v) = false) -> count p (map StWrite vs) = 0%nat.
Proof.
  intros H. induction vs as [|v vs IH]; [reflexivity|].
  cbn [map]. rewrite count_cons, H, IH. reflexivity.
Qed.

Ltac count_events :=
  repeat first
    [ rewrite count_app
    | rewrite count_cons
    | rewrite count_nil
    | rewrite count_st_write by reflexivity ];
  cbn [is_lida_call is_post is_drive_request drive_event post_link_event post_summary_event
       save_error failed_link summarize_visualize_event question_visualize_event].

Lemma summary_step_counts ext cfg v :
  count is_lida_call (summary_step_events ext cfg v) = 0%nat /\
  count is_post (summary_step_events ext cfg v) = 1%nat /\
  count is_drive_request (summary_step_events ext cfg v) = 0%nat.
Proof.
  unfold summary_step_events.
  destruct (post_summary ext cfg v) as [response|e].
  - destruct (json response) as [body|e].
    + destruct (status_code response =? 200), (truthy body); repeat split; reflexivity.
    + repeat split; reflexivity.
  - repeat split; reflexivity.
Qed.

Lemma summarize_upload_step_counts ext cfg img s :
  exists s' t,
    summarize_upload_step ext cfg img s = (Ok tt, s', t) /\
    count is_lida_call t = 0%nat /\
    (count is_post t <= 1)%nat /\
    count is_drive_request t = 1%nat.
Proof.
  rewrite summarize_upload_step_run.
  destruct (drive_create ext img) as [file|e].
  2:{ do 2 eexists. repeat split; try reflexivity; try (cbn; lia). }
  cbn zeta.
  destruct (post_link ext cfg (dict_get file "webViewLink")) as [response|e].
  2:{ do 2 eexists. repeat split; try reflexivity; try (cbn; lia). }
  destruct (json response) as [body|e].
  2:{ do 2 eexists. repeat split; try reflexivity; try (cbn; lia). }
  destruct (status_code response =? 200), (truthy body);
    do 2 eexists; repeat split; try reflexivity; try (cbn; lia).
Qed.

Lemma question_upload_step_counts ext cfg img query s :
  exists s' t,
    question_upload_step ext cfg img query s = (Ok tt, s', t) /\
    count is_lida_call t = 0%nat /\
    (count is_post t <= 1)%nat /\
    count is_drive_request t = 1%nat.
Proof.
  rewrite question_upload_step_run.
  destruct (drive_create ext img) as [file|e].
  2:{ do 2 eexists. repeat split; try reflexivity; try (cbn; lia). }
  cbn zeta.
  destruct (post_link ext cfg (dict_get file "webViewLink")) as [response|e].
  2:{ do 2 eexists. repeat split; try reflexivity; try (cbn; lia). }
  destruct (json response) as [body|e].
  2:{ do 2 eexists. repeat split; try reflexivity; try (cbn; lia). }
  destruct (status_code response =? 200), (truthy body);
    do 2 eexists; repeat split; try reflexivity; try (cbn; lia).
Qed.

(** X13: no call is retried or repeated.  One execution of the Summarize
    flow makes at most three LIDA calls (summarize, goals, visualize),
    at most two POSTs (the summary, the link) and at most one Drive
    request, however it ends; one execution of the Question flow makes
    at most two LIDA calls, one POST and one Drive request. *)
Theorem flows_never_repeat_a_call ext cfg content path query s :
  (exists r s' t,
      summarize_flow ext cfg content s = (r, s', t) /\
      (count is_lida_call t <= 3)%nat /\
      (count is_post t <= 2)%nat /\
      (count is_drive_request t <= 1)%nat) /\
  (exists r s' t,
      question_flow ext cfg path query s = (r, s', t) /\
      (count is_lida_call t <= 2)%nat /\
      (count is_post t <= 1)%nat /\
      (count is_drive_request t <= 1)%nat).
Proof.
  split.
  - rewrite summarize_flow_run.
    destruct (lida_summarize ext "filename.csv" "default" textgen_config) as [v|e].
    2:{ do 3 eexists. split; [reflexivity|]. cbn. lia. }
    destruct (summary_step_counts ext cfg v) as (Hl & Hp & Hd).
    unfold summarize_events_to_goals.
    destruct (lida_goals ext v 2 textgen_config) as [[|goal others]|e].
    1,3: do 3 eexists; (split; [reflexivity|]); count_events; rewrite Hl, Hp, Hd; cbn; lia.
    cbn zeta.
    destruct (lida_visualize ext (summary_text_of ext v) goal textgen_config_low
                             (Some "seaborn")) as [[|chart more]|e].
    1,3: do 3 eexists; (split; [reflexivity|]); count_events; rewrite Hl, Hp, Hd; cbn; lia.
    destruct (b64decode_open ext (raster chart)) as [img|e].
    2:{ do 3 eexists. split; [reflexivity|]. count_events. rewrite Hl, Hp, Hd. cbn. lia. }
    destruct (summarize_upload_step_counts ext cfg img (with_csv s))
      as (s' & t & -> & Hl' & Hp' & Hd').
    do 3 eexists. split; [reflexivity|]. count_events. rewrite Hl, Hp, Hd, Hl', Hd'.
    cbn. lia.
  - rewrite question_flow_run.
    destruct (lida_summarize ext (fmt_opt path) "default" textgen_config_low) as [v|e].
    2:{ do 3 eexists. split; [reflexivity|]. cbn. lia. }
    cbn zeta.
    destruct (lida_visualize ext (summary_text_of ext v) (PyStr query) textgen_config_low None)
      as [[|chart more]|e].
    1,3: do 3 eexists; (split; [reflexivity|]); cbn; lia.
    destruct (b64decode_open ext (raster chart)) as [img|e].
    2:{ do 3 eexists. split; [reflexivity|]. cbn. lia. }
    destruct (question_upload_step_counts ext cfg img query s)
      as (s' & t & -> & Hl' & Hp' & Hd').
    do 3 eexists. split; [reflexivity|]. count_events. rewrite Hl', Hd'. cbn. lia.
Qed.

(** ** From one execution to the next *)

(** X14: the sidebar is drawn before the screen, from what the session
    held when the execution began.  So in a new session, an execution in
    which the Summarize flow saves its chart draws no sidebar (its first
    output is the page header), and the next execution, whatever its
    inputs, starts by drawing the heading and the thumbnail of that
    chart under the label "Summary Chart" (provided its PNG can be
    written). *)
Theorem saved_chart_appears_in_next_sidebar
    ext cfg inp content v goal others chart more img file response body
    ext' cfg' inp' enc :
  startup ext = Ok cfg ->
  menu inp = "Summarize" ->
  file_uploader inp = Some content ->
  lida_summarize ext "filename.csv" "default" textgen_config = Ok v ->
  lida_goals ext v 2 textgen_config = Ok (goal :: others) ->
  lida_visualize ext (summary_text_of ext v) goal textgen_config_low (Some "seaborn")
  = Ok (chart :: more) ->
  b64decode_open ext (raster chart) = Ok img ->
  drive_create ext img = Ok file ->
  post_link ext cfg (dict_get file "webViewLink") = Ok response ->
  status_code response = 200 ->
  json response = Ok body ->
  truthy body = true ->
  startup ext' = Ok cfg' ->
  image_save_b64 ext' img temp_file_path = Ok (enc img) ->
  exists raw1 rest1 r2 raw2 rest2,
    script ext inp fresh_session
    = (Ok tt, raw1,
       StHeader "📊 INFERA ONE 📊" :: StSubheader "Summarization of your Data" :: rest1) /\
    raw_generated_charts raw1 = Some [img] /\
    raw_chart_names raw1 = Some ["Summary Chart"] /\
    script ext' inp' raw1
    = (r2, raw2,
       SidebarSubheader "Generated Graphs"
       :: thumbnail enc ("Summary Chart", img) :: rest2).
Proof.
  intros Hstart Hmenu Hfile Hsum Hgoals Hvis Hdec Hdrive Hpost Hcode Hjson Htruthy
         Hstart' Henc.
  pose (s0 := init_session_state fresh_session).
  pose (s1 := remember img "Summary Chart" (with_csv s0)).
  assert (Hrun1 : exists rest1,
             script ext inp fresh_session
             = (Ok tt, to_raw s1,
                StHeader "📊 INFERA ONE 📊"
                :: StSubheader "Summarization of your Data" :: rest1)).
  { rewrite (script_after_sidebar ext cfg inp fresh_session [] Hstart
               (sidebar_no_charts ext s0 eq_refl)).
    unfold screen. rewrite Hmenu. cbn [String.eqb Ascii.eqb Bool.eqb].
    rewrite menu_summarize_run, Hfile.
    rewrite (summarize_flow_saved _ _ _ _ _ _ _ _ _ _ _ _ _
               Hsum Hgoals Hvis Hdec Hdrive Hpost Hcode Hjson Htruthy).
    eexists. reflexivity. }
  destruct Hrun1 as [rest1 Hrun1].
  assert (Hside : sidebar ext' s1
                  = (Ok tt, s1,
                     [SidebarSubheader "Generated Graphs";
                      thumbnail enc ("Summary Chart", img)])).
  { rewrite sidebar_unfold. cbn [s1 s0 remember with_csv init_session_state fresh_session
                                 or_default raw_generated_charts raw_chart_names
                                 generated_charts chart_names app combine].
    rewrite (for_each_sidebar_ok ext' enc); [reflexivity|].
    intros name i [[= <- <-]|[]]. exact Henc. }
  exists (to_raw s1), rest1.
  destruct (screen ext' cfg' inp' s1) as [[r2 s2] t2] eqn:Hscreen.
  exists r2, (to_raw s2), t2.
  split; [exact Hrun1|]. split; [reflexivity|]. split; [reflexivity|].
  unfold script. rewrite Hstart', init_to_raw.
  rewrite (page_after_sidebar ext' cfg' inp' s1 _ Hside), Hscreen. reflexivity.
Qed.

(** ** Concrete runs of the further properties *)

(** X1 on a session holding two charts. *)
Lemma sidebar_shows_one_thumbnail_per_chart_witness :
  sidebar Mock.happy Mock.two_charts
  = (Ok tt, Mock.two_charts,
     [SidebarSubheader "Generated Graphs";
      thumbnail Mock.encoded ("Summary Chart", Mock.image);
      thumbnail Mock.encoded ("sales by region", Mock.image2)]).
Proof.
  exact (proj1 (sidebar_shows_one_thumbnail_per_chart Mock.happy Mock.encoded Mock.two_charts
                  (fun img _ => eq_refl))).
Defined.

(** X2 on a session holding two charts, the second of which cannot be
    written. *)
Lemma unwritable_thumbnail_aborts_page_witness :
  image_save_b64 (Mock.with_unwritable Mock.image2 Mock.disk_full Mock.happy)
                 Mock.image2 temp_file_path = Raise Mock.disk_full /\
  page (Mock.with_unwritable Mock.image2 Mock.disk_full Mock.happy) Mock.config
       (Mock.ask "sales by month") Mock.two_charts
  = (Raise Mock.disk_full, Mock.two_charts,
     [SidebarSubheader "Generated Graphs";
      thumbnail Mock.encoded ("Summary Chart", Mock.image)]).
Proof.
  split; [reflexivity|].
  refine (proj1 (unwritable_thumbnail_aborts_page
                   (Mock.with_unwritable Mock.image2 Mock.disk_full Mock.happy) Mock.config
                   (Mock.ask "sales by month") Mock.encoded Mock.two_charts
                   ["Summary Chart"] "sales by region" [] [Mock.image] Mock.image2 []
                   Mock.disk_full eq_refl eq_refl eq_refl _ eq_refl)).
  intros i [<-|[]]. reflexivity.
Defined.

(** X4 on the Summarize screen without a file and on the Question
    screen with an empty query. *)
Lemma idle_screens_call_nothing_witness :
  file_uploader Mock.no_upload = None /\
  menu_summarize Mock.happy Mock.config Mock.no_upload Mock.empty_session
  = (Ok tt, Mock.empty_session,
     [StHeader "📊 INFERA ONE 📊"; StSubheader "Summarization of your Data"]) /\
  text_area (Mock.ask "") = "" /\
  menu_question Mock.happy Mock.config (Mock.ask "") Mock.uploaded_session
  = (Ok tt, Mock.uploaded_session, [StSubheader "Query your Data to Generate Graph"]).
Proof.
  split; [reflexivity|]. split; [|split; [reflexivity|]].
  - exact (proj1 (idle_screens_call_nothing Mock.happy Mock.config Mock.no_upload
                    Mock.empty_session) eq_refl).
  - exact (proj2 (idle_screens_call_nothing Mock.happy Mock.config (Mock.ask "")
                    Mock.uploaded_session) eq_refl (or_intror eq_refl)).
Defined.

(** X5 on an upload whose chart does not decode. *)
Lemma uploaded_file_unlocks_question_screen_witness :
  file_uploader Mock.upload_csv = Some "a,b" /\
  exists r s' rest,
    menu_summarize Mock.undecodable Mock.config Mock.upload_csv Mock.empty_session
    = (r, s',
       StHeader "📊 INFERA ONE 📊"
       :: StSubheader "Summarization of your Data"
       :: WriteFile "filename.csv" "a,b"
       :: LidaSummarize "filename.csv" "default" textgen_config :: rest) /\
    csv_file_path s' = Some "filename.csv" /\
    forall ext' cfg' inp',
      button inp' = true ->
      text_area inp' <> "" ->
      exists r2 s2 rest2,
        menu_question ext' cfg' inp' s'
        = (r2, s2,
           StSubheader "Query your Data to Generate Graph"
           :: StInfo ("Your Query: " ++ text_area inp')%string
           :: LidaSummarize "filename.csv" "default" textgen_config_low :: rest2).
Proof.
  split; [reflexivity|].
  exact (uploaded_file_unlocks_question_screen Mock.undecodable Mock.config Mock.upload_csv
           "a,b" Mock.empty_session eq_refl).
Defined.

(** X6 with collaborators that all answer. *)
Lemma summarize_flow_when_all_answer_witness :
  status_code (mkResponse 200 (Ok Mock.created)) = 200 /\
  truthy Mock.created = true /\
  summarize_flow Mock.happy Mock.config "a,b" Mock.empty_session
  = (Ok tt,
     mkSession (Some "filename.csv") None [Mock.image] ["Summary Chart"],
     [WriteFile "filename.csv" "a,b";
      LidaSummarize "filename.csv" "default" textgen_config;
      StWrite (PyStr "S")]
     ++ summary_step_events Mock.happy Mock.config (PyStr "S")
     ++ [LidaGoals (PyStr "S") 2 textgen_config]
     ++ map StWrite [Mock.goal1; Mock.goal2]
     ++ [LidaVisualize (PyStr "S") Mock.goal1 textgen_config_low (Some "seaborn");
         DriveFilesCreate file_metadata Mock.image "id, webViewLink";
         StImage Mock.image;
         post_link_event Mock.happy Mock.config Mock.link;
         StSuccess "Visualization saved to Airtable successfully!"]).
Proof.
  split; [reflexivity|]. split; [reflexivity|].
  exact (summarize_flow_when_all_answer Mock.happy Mock.config "a,b" Mock.empty_session
           (PyStr "S") Mock.goal1 [Mock.goal2] Mock.chart [] Mock.image Mock.drive_file
           (mkResponse 200 (Ok Mock.created)) Mock.created
           eq_refl eq_refl eq_refl eq_refl eq_refl eq_refl eq_refl eq_refl eq_refl).
Defined.

(** X7 with collaborators that all answer. *)
Lemma question_flow_when_all_answer_witness :
  truthy Mock.created = true /\
  question_flow Mock.happy Mock.config (Some "filename.csv") "sales by region"
                Mock.uploaded_session
  = (Ok tt,
     mkSession (Some "filename.csv") None [Mock.image] ["sales by region"],
     [StInfo "Your Query: sales by region";
      LidaSummarize "filename.csv" "default" textgen_config_low;
      LidaVisualize (PyStr "S") (PyStr "sales by region") textgen_config_low None;
      StImage Mock.image;
      DriveFilesCreate file_metadata Mock.image "id, webViewLink";
      post_link_event Mock.happy Mock.config Mock.link;
      StSuccess "Visualization saved to Airtable successfully!"]).
Proof.
  split; [reflexivity|].
  exact (question_flow_when_all_answer Mock.happy Mock.config (Some "filename.csv")
           "sales by region" Mock.uploaded_session (PyStr "S") Mock.chart [] Mock.image
           Mock.drive_file (mkResponse 200 (Ok Mock.created)) Mock.created
           eq_refl eq_refl eq_refl eq_refl eq_refl eq_refl eq_refl eq_refl).
Defined.

(** X8 on a Drive answer that only holds the file id. *)
Lemma missing_link_is_posted_as_text_witness :
  drive_create Mock.drive_without_link Mock.image = Ok [("id", PyStr "f1")] /\
  upload_image_to_drive Mock.drive_without_link Mock.image Mock.uploaded_session
  = (Ok PyNone, Mock.uploaded_session, [drive_event Mock.image]).
Proof.
  split; [reflexivity|].
  refine (proj1 (missing_link_is_posted_as_text Mock.drive_without_link Mock.config
                   Mock.image "sales by region" Mock.uploaded_session
                   [("id", PyStr "f1")] eq_refl _)).
  intros v [H|[]]. discriminate H.
Defined.

(** X9 on a link save answered 200 with an empty object. *)
Lemma accepted_save_with_falsy_body_is_silent_witness :
  truthy (PyDict []) = false /\
  summarize_upload_step Mock.link_save_200_empty Mock.config Mock.image Mock.uploaded_session
  = (Ok tt, Mock.uploaded_session,
     [drive_event Mock.image; StImage Mock.image;
      post_link_event Mock.link_save_200_empty Mock.config Mock.link]).
Proof.
  split; [reflexivity|].
  exact (proj1 (proj2 (accepted_save_with_falsy_body_is_silent Mock.link_save_200_empty
                         Mock.config (PyStr "S") Mock.image "sales by region"
                         Mock.uploaded_session Mock.drive_file
                         (mkResponse 200 (Ok (PyDict []))) (PyDict [])
                         eq_refl eq_refl eq_refl)
                      eq_refl eq_refl)).
Defined.

(** X10 on a summary save answered 500 with an error object. *)
Lemma rejected_summary_save_does_not_stop_flow_witness :
  status_code (mkResponse 500 (Ok Mock.error_body)) <> 200 /\
  summarize_save_summary Mock.summary_save_500 Mock.config (PyStr "S") Mock.empty_session
  = (Ok tt, Mock.empty_session,
     [post_summary_event Mock.summary_save_500 Mock.config (PyStr "S");
      StError "Failed to save summary to Airtable: <repr>";
      StSuccess "Summary saved to Airtable successfully!"]).
Proof.
  assert (H : status_code (mkResponse 500 (Ok Mock.error_body)) <> 200)
    by (cbn; discriminate).
  split; [exact H|].
  exact (proj1 (rejected_summary_save_does_not_stop_flow Mock.summary_save_500 Mock.config
                  "a,b" Mock.empty_session (PyStr "S")
                  (mkResponse 500 (Ok Mock.error_body)) Mock.error_body
                  eq_refl eq_refl H eq_refl)).
Defined.


(** X14 on two executions with collaborators that all answer. *)
Lemma saved_chart_appears_in_next_sidebar_witness :
  startup Mock.happy = Ok Mock.config /\
  exists raw1 rest1 r2 raw2 rest2,
    script Mock.happy Mock.upload_csv fresh_session
    = (Ok tt, raw1,
       StHeader "📊 INFERA ONE 📊" :: StSubheader "Summarization of your Data" :: rest1) /\
    raw_generated_charts raw1 = Some [Mock.image] /\
    raw_chart_names raw1 = Some ["Summary Chart"] /\
    script Mock.happy (Mock.ask "sales by region") raw1
    = (r2, raw2,
       SidebarSubheader "Generated Graphs"
       :: thumbnail Mock.encoded ("Summary Chart", Mock.image) :: rest2).
Proof.
  split; [reflexivity|].
  exact (saved_chart_appears_in_next_sidebar Mock.happy Mock.config Mock.upload_csv "a,b"
           (PyStr "S") Mock.goal1 [Mock.goal2] Mock.chart [] Mock.image Mock.drive_file
           (mkResponse 200 (Ok Mock.created)) Mock.created
           Mock.happy Mock.config (Mock.ask "sales by region") Mock.encoded
           eq_refl eq_refl eq_refl eq_refl eq_refl eq_refl eq_refl eq_refl eq_refl
           eq_refl eq_refl eq_refl eq_refl eq_refl).
Defined.

(** ** What is sent to Airtable *)

Lemma truthy_opt_some o : truthy_opt o = true -> exists text, o = Some text /\ text <> "".
Proof.
  destruct o as [text|]; [|discriminate]. cbn. intros H. exists text.
  split; [reflexivity|]. intros ->. discriminate H.
Qed.

(** X15: after a start that succeeded, both save functions address the
    base and the table named in the environment and authenticate with
    the token read there: the four values are present and non-empty, so
    the URL and the bearer header never carry the text of [None]. *)
Theorem requests_use_the_configured_base ext cfg :
  startup ext = Ok cfg ->
  exists base summaries visualizations pat,
    getenv ext "AIRTABLE_BASE_ID" = Some base /\ base <> "" /\
    getenv ext "AIRTABLE_SUMMARIES_TABLE_NAME" = Some summaries /\ summaries <> "" /\
    getenv ext "AIRTABLE_VISUALIZATIONS_TABLE_NAME" = Some visualizations /\
    visualizations <> "" /\
    getenv ext "AIRTABLE_PAT" = Some pat /\ pat <> "" /\
    (forall v,
        post_summary_event ext cfg v
        = RequestsPost ("https://api.airtable.com/v0/" ++ base ++ "/" ++ summaries)%string
                       [("Authorization", PyStr ("Bearer " ++ pat)%string);
                        ("Content-Type", PyStr "application/json")]
                       (summary_record ext v)) /\
    (forall image_url,
        post_link_event ext cfg image_url
        = RequestsPost ("https://api.airtable.com/v0/" ++ base ++ "/" ++ visualizations)%string
                       [("Authorization", PyStr ("Bearer " ++ pat)%string);
                        ("Content-Type", PyStr "application/json")]
                       (link_record ext image_url)).
Proof.
  intros H.
  destruct (startup_ok ext cfg H) as (_ & Hb & Hs & Hv & Hp & Hall & _).
  cbn [forallb] in Hall.
  apply andb_prop in Hall as [Hb' Hall]. apply andb_prop in Hall as [Hs' Hall].
  apply andb_prop in Hall as [Hv' Hall]. apply andb_prop in Hall as [Hp' _].
  destruct (truthy_opt_some _ Hb') as (base & Eb & Nb).
  destruct (truthy_opt_some _ Hs') as (summaries & Es & Ns).
  destruct (truthy_opt_some _ Hv') as (visualizations & Ev & Nv).
  destruct (truthy_opt_some _ Hp') as (pat & Ep & Np).
  exists base, summaries, visualizations, pat.
  repeat match goal with |- _ /\ _ => split end; try assumption; try congruence.
  - intros v. unfold post_summary_event, airtable_url, airtable_headers.
    rewrite Eb, Es, Ep. reflexivity.
  - intros image_url. unfold post_link_event, airtable_url, airtable_headers.
    rewrite Eb, Ev, Ep. reflexivity.
Qed.

Ltac find_in :=
  match goal with
  | |- In _ (_ ++ _) => apply in_or_app; first [ left; find_in | right; find_in ]
  | |- In _ (_ :: _) => first [ left; reflexivity | right; find_in ]
  end.

(** X16: in the Summarize flow the summary persisted in Airtable and
    the summary given to the visualizer are the same value: the text
    [str(summary)] when the summarizer returned a dict, the summary
    itself otherwise.  The summarizer's own value, dict or not, is what
    is displayed and what the goal generator receives. *)
Theorem persisted_summary_is_the_visualized_one ext cfg content s v goal others :
  lida_summarize ext "filename.csv" "default" textgen_config = Ok v ->
  lida_goals ext v 2 textgen_config = Ok (goal :: others) ->
  exists sent r s' t,
    summarize_flow ext cfg content s = (r, s', t) /\
    In (RequestsPost (airtable_url cfg (SUMMARIES_TABLE_NAME cfg)) (airtable_headers cfg)
                     (PyDict [("fields", PyDict [("Summary Text", sent)])])) t /\
    In (LidaVisualize sent goal textgen_config_low (Some "seaborn")) t /\
    In (StWrite v) t /\
    In (LidaGoals v 2 textgen_config) t /\
    (is_dict v = true -> sent = PyStr (repr ext v)) /\
    (is_dict v = false -> sent = v).
Proof.
  intros Hsum Hgoals. exists (summary_text_of ext v).
  assert (Hshown : forall rest,
             let t := (summarize_events_to_goals ext cfg content v
                       ++ map StWrite (goal :: others)
                       ++ [summarize_visualize_event ext v goal]) ++ rest in
             In (RequestsPost (airtable_url cfg (SUMMARIES_TABLE_NAME cfg))
                              (airtable_headers cfg)
                              (PyDict [("fields",
                                        PyDict [("Summary Text", summary_text_of ext v)])])) t /\
             In (LidaVisualize (summary_text_of ext v) goal textgen_config_low
                               (Some "seaborn")) t /\
             In (StWrite v) t /\
             In (LidaGoals v 2 textgen_config) t).
  { intros rest t. subst t. unfold summarize_events_to_goals, summary_step_events.
    repeat split; find_in. }
  assert (Htext : (is_dict v = true -> summary_text_of ext v = PyStr (repr ext v)) /\
                  (is_dict v = false -> summary_text_of ext v = v)).
  { unfold summary_text_of. split; intros Hd; destruct v; try discriminate Hd; reflexivity. }
  rewrite summarize_flow_run, Hsum, Hgoals. cbn zeta.
  destruct (lida_visualize ext (summary_text_of ext v) goal textgen_config_low (Some "seaborn"))
    as [[|chart more]|e].
  - do 3 eexists. split; [reflexivity|].
    destruct (Hshown []) as (H1 & H2 & H3 & H4). rewrite app_nil_r in *. tauto.
  - destruct (b64decode_open ext (raster chart)) as [img|e].
    + destruct (summarize_upload_step ext cfg img (with_csv s)) as [[r s'] t].
      do 3 eexists. split; [reflexivity|].
      destruct (Hshown t) as (H1 & H2 & H3 & H4). tauto.
    + do 3 eexists. split; [reflexivity|].
      destruct (Hshown []) as (H1 & H2 & H3 & H4). rewrite app_nil_r in *. tauto.
  - do 3 eexists. split; [reflexivity|].
    destruct (Hshown []) as (H1 & H2 & H3 & H4). rewrite app_nil_r in *. tauto.
Qed.

(** X15 on the test environment. *)
Lemma requests_use_the_configured_base_witness :
  startup Mock.happy = Ok Mock.config /\
  post_link_event Mock.happy Mock.config Mock.link
  = RequestsPost "https://api.airtable.com/v0/appBase/Visualizations"
                 [("Authorization", PyStr "Bearer patToken");
                  ("Content-Type", PyStr "application/json")]
                 (PyDict [("fields", PyDict [("Image Link", Mock.link)])]).
Proof.
  split; [reflexivity|].
  destruct (requests_use_the_configured_base Mock.happy Mock.config eq_refl)
    as (base & summaries & visualizations & pat
        & Eb & _ & _ & _ & Ev & _ & Ep & _ & _ & Hlink).
  injection Eb as <-. injection Ev as <-. injection Ep as <-.
  exact (Hlink Mock.link).
Defined.

(** X16 on a summarizer that returns a text. *)
Lemma persisted_summary_is_the_visualized_one_witness :
  lida_summarize Mock.happy "filename.csv" "default" textgen_config = Ok (PyStr "S") /\
  exists sent r s' t,
    summarize_flow Mock.happy Mock.config "a,b" Mock.empty_session = (r, s', t) /\
    In (RequestsPost (airtable_url Mock.config (SUMMARIES_TABLE_NAME Mock.config))
                     (airtable_headers Mock.config)
                     (PyDict [("fields", PyDict [("Summary Text", sent)])])) t /\
    In (LidaVisualize sent Mock.goal1 textgen_config_low (Some "seaborn")) t /\
    In (StWrite (PyStr "S")) t /\
    In (LidaGoals (PyStr "S") 2 textgen_config) t /\
    (is_dict (PyStr "S") = true -> sent = PyStr (repr Mock.happy (PyStr "S"))) /\
    (is_dict (PyStr "S") = false -> sent = PyStr "S").
Proof.
  split; [reflexivity|].
  exact (persisted_summary_is_the_visualized_one Mock.happy Mock.config "a,b"
           Mock.empty_session (PyStr "S") Mock.goal1 [Mock.goal2] eq_refl eq_refl).
Defined.
